(** * yt_dlp/extractor/teachable.py: a shallow embedding and its properties

    The file follows the layout of the source:

    - [Py]: the few Python string and list operations the extractor uses;
    - [Re]: the fragment of Python's [re] the extractor's patterns need
      (a backtracking matcher with groups, back-references, negative
      look-ahead, lazy and greedy repetition and the word boundary);
    - what teachable.py imports: the helpers it calls, the requests it
      sends, and the state and exception monad its methods run in;
    - [TeachableBaseIE], [TeachableIE] and [TeachableCourseIE], each with
      its patterns as values of [Re.regex] and its methods over an
      explicit extractor state, a trace of the requests made and a
      [World] that answers them;
    - page fixtures and scenarios, the vocabulary of the properties, and
      the properties.

    Strings are [string]: sequences of characters read as code points
    below 256. *)

From Stdlib Require Import Strings.String Strings.Ascii Lists.List Bool.Bool.
From Stdlib Require Import Arith.Arith ZArith.ZArith Lia.
Import ListNotations.
Open Scope string_scope.
Open Scope nat_scope.

Set Implicit Arguments.

(* ===================================================================== *)
(** * Python strings and lists *)
(* ===================================================================== *)

Module Py.

(** The double quote, written by its code (the other quote is ['] itself). *)
Definition dquote : ascii := "034"%char.
Definition squote : ascii := "'"%char.

(** [s.startswith(p)] *)
Definition startswith (s p : string) : bool := String.prefix p s.

(** [s[n:]] *)
Fixpoint drop (n : nat) (s : string) : string :=
  match n, s with
  | O, _ => s
  | S n', String _ s' => drop n' s'
  | S _, EmptyString => EmptyString
  end.

(** [s[:n]] *)
Fixpoint take (n : nat) (s : string) : string :=
  match n, s with
  | O, _ => EmptyString
  | S n', String c s' => String c (take n' s')
  | S _, EmptyString => EmptyString
  end.

(** [needle in hay] *)
Fixpoint str_in (needle hay : string) : bool :=
  String.prefix needle hay ||
  match hay with
  | EmptyString => false
  | String _ hay' => str_in needle hay'
  end.

(** Truthiness of an optional string: [None] and the empty string are
    false. *)
Definition truthy (v : option string) : bool :=
  match v with
  | None => false
  | Some s => negb (String.eqb s "")
  end.

(** [a or b] on optional strings. *)
Definition or_ (a b : option string) : option string :=
  if truthy a then a else b.

(** [d.get(k, default)] on a dict kept as an association list (a dict
    keeps its insertion order, and [_SITES.keys()] is iterated). *)
Fixpoint dict_get (d : list (string * string)) (k : string) : option string :=
  match d with
  | [] => None
  | (k', v) :: d' => if String.eqb k' k then Some v else dict_get d' k
  end.

(** [d.get(k)] whatever the values are. *)
Fixpoint dict_lookup (A : Type) (d : list (string * A)) (k : string) : option A :=
  match d with
  | [] => None
  | (k', v) :: d' => if String.eqb k' k then Some v else dict_lookup d' k
  end.

(** [d[k] = v]: the value is replaced in place, a new key goes last. *)
Fixpoint dict_set (A : Type) (d : list (string * A)) (k : string) (v : A)
  : list (string * A) :=
  match d with
  | [] => [(k, v)]
  | (k', v') :: d' =>
      if String.eqb k' k then (k, v) :: d' else (k', v') :: dict_set d' k v
  end.

(** [l[i]] for a Python integer [i]: a negative index counts from the end,
    and an index outside [-len, len) raises IndexError ([None] here). *)
Definition index (A : Type) (l : list A) (i : Z) : option A :=
  let len := Z.of_nat (List.length l) in
  if (0 <=? i)%Z then nth_error l (Z.to_nat i)
  else if (- len <=? i)%Z then nth_error l (Z.to_nat (len + i))
  else None.

(** ['|'.join(l)] generalised to any separator. *)
Fixpoint join (sep : string) (l : list string) : string :=
  match l with
  | [] => ""
  | [x] => x
  | x :: l' => x ++ sep ++ join sep l'
  end.

End Py.

(* ===================================================================== *)
(** * The fragment of Python's re used by the extractor *)
(* ===================================================================== *)

Module Re.

(** An item of a character class. *)
Inductive citem : Type :=
| CChar (c : ascii)
| CRange (lo hi : ascii)
| CDigit                      (* \d *)
| CSpace                      (* \s *)
| CWord.                      (* \w *)

Inductive regex : Type :=
| Eps
| Lit (s : string)                         (* a literal run of characters *)
| Cls (neg : bool) (items : list citem)    (* [...] and [^...], \d, \s *)
| Dot (dotall : bool)                      (* . with or without (?s) *)
| Seq (r1 r2 : regex)
| Alt (r1 r2 : regex)
| Rep (greedy : bool) (lo : nat) (hi : option nat) (r : regex)
| Grp (n : nat) (r : regex)                (* capturing group number n *)
| Backref (n : nat)                        (* \n *)
| NegLook (r : regex)                      (* (?!r) *)
| WordB.                                   (* \b *)

Definition code (c : ascii) : nat := nat_of_ascii c.

Definition between (lo hi n : nat) : bool := (lo <=? n) && (n <=? hi).

(** Python's str predicates on the code points below 256. *)
Definition is_digit (c : ascii) : bool := between 48 57 (code c).

Definition is_space (c : ascii) : bool :=
  let n := code c in
  between 9 13 n || between 28 32 n || (n =? 133) || (n =? 160).

Definition is_word (c : ascii) : bool :=
  let n := code c in
  between 48 57 n || between 65 90 n || between 97 122 n || (n =? 95)
  || (n =? 170) || (n =? 178) || (n =? 179) || (n =? 181) || (n =? 185)
  || (n =? 186) || between 188 190 n
  || between 192 214 n || between 216 246 n || between 248 255 n.

Definition in_item (c : ascii) (i : citem) : bool :=
  match i with
  | CChar c' => Ascii.eqb c c'
  | CRange lo hi => between (code lo) (code hi) (code c)
  | CDigit => is_digit c
  | CSpace => is_space c
  | CWord => is_word c
  end.

(** A position in the subject: the character before it (for \b), what is
    left to read, and the groups bound so far, most recent first. *)
Record pos : Type := mkpos {
  prev : option ascii;
  rest : string;
  caps : list (nat * string)
}.

Definition remaining (p : pos) : nat := String.length (rest p).

(** The text read between two positions of one subject. *)
Definition consumed (p p' : pos) : string :=
  Py.take (remaining p - remaining p') (rest p).

Definition step (p : pos) : option (ascii * pos) :=
  match rest p with
  | EmptyString => None
  | String c s => Some (c, mkpos (Some c) s (caps p))
  end.

Fixpoint eat (lit : string) (p : pos) : option pos :=
  match lit with
  | EmptyString => Some p
  | String c lit' =>
      match step p with
      | Some (c', p') => if Ascii.eqb c c' then eat lit' p' else None
      | None => None
      end
  end.

Fixpoint group_of (cs : list (nat * string)) (n : nat) : option string :=
  match cs with
  | [] => None
  | (m, s) :: cs' => if m =? n then Some s else group_of cs' n
  end.

Definition bind_group (n : nat) (p p' : pos) : pos :=
  mkpos (prev p') (rest p') ((n, consumed p p') :: caps p').

Definition word_opt (c : option ascii) : bool :=
  match c with Some c => is_word c | None => false end.

Definition at_boundary (p : pos) : bool :=
  xorb (word_opt (prev p))
       (word_opt (match rest p with String c _ => Some c | EmptyString => None end)).

Definition below (count : nat) (hi : option nat) : bool :=
  match hi with Some h => count <? h | None => true end.

(** The matcher, in continuation-passing style: [run r p k] reads [r] at
    [p] and hands every way of doing so, in Python's order of preference,
    to [k] until [k] accepts one.

    A repetition counts its iterations; past the lower bound an iteration
    that reads nothing is not repeated, so [lo + remaining p] iterations
    is all a subject allows and the inner loop never stops short. *)
Fixpoint run (r : regex) (R : Type) (p : pos) (k : pos -> option R)
  {struct r} : option R :=
  match r with
  | Eps => k p
  | Lit s =>
      match eat s p with Some p' => k p' | None => None end
  | Cls neg items =>
      match step p with
      | Some (c, p') =>
          if xorb neg (existsb (in_item c) items) then k p' else None
      | None => None
      end
  | Dot dotall =>
      match step p with
      | Some (c, p') =>
          if dotall || negb (Ascii.eqb c "010"%char) then k p' else None
      | None => None
      end
  | Seq r1 r2 => run r1 p (fun p' => run r2 p' k)
  | Alt r1 r2 =>
      match run r1 p k with
      | Some x => Some x
      | None => run r2 p k
      end
  | Rep greedy lo hi r' =>
      (fix loop (fuel count : nat) (p : pos) {struct fuel} : option R :=
         match fuel with
         | O => None
         | S fuel' =>
             let again (_ : unit) :=
               if below count hi then
                 run r' p (fun p' =>
                   if (lo <=? count) && (remaining p <=? remaining p')
                   then None
                   else loop fuel' (S count) p')
               else None in
             let stop (_ : unit) := if lo <=? count then k p else None in
             if greedy then
               match again tt with Some x => Some x | None => stop tt end
             else
               match stop tt with Some x => Some x | None => again tt end
         end) (S (lo + remaining p)) O p
  | Grp n r' => run r' p (fun p' => k (bind_group n p p'))
  | Backref n =>
      match group_of (caps p) n with
      | Some s => match eat s p with Some p' => k p' | None => None end
      | None => None
      end
  | NegLook r' =>
      match run r' p (fun _ => Some tt) with
      | Some _ => None
      | None => k p
      end
  | WordB => if at_boundary p then k p else None
  end.

(** A match object: [group(0)], the groups, and where the match ended. *)
Record mobj : Type := mkmobj {
  group0 : string;
  groups : list (nat * string);
  after : pos
}.

Definition group (m : mobj) (n : nat) : option string := group_of (groups m) n.

Definition match_at (r : regex) (p : pos) : option mobj :=
  match run r p (fun p' => Some p') with
  | Some p' => Some (mkmobj (consumed p p') (caps p') (mkpos (prev p') (rest p') []))
  | None => None
  end.

Definition start (s : string) : pos := mkpos None s [].

(** [re.match(r, s)] *)
Definition match_ (r : regex) (s : string) : option mobj := match_at r (start s).

(** [re.search]: the leftmost position at which the pattern matches. *)
Fixpoint search_from (r : regex) (pv : option ascii) (s : string) : option mobj :=
  match match_at r (mkpos pv s []) with
  | Some m => Some m
  | None =>
      match s with
      | EmptyString => None
      | String c s' => search_from r (Some c) s'
      end
  end.

Definition search (r : regex) (s : string) : option mobj := search_from r None s.

Definition found (r : regex) (s : string) : bool :=
  match search r s with Some _ => true | None => false end.

(** [re.finditer]: the successive non-overlapping matches, left to right.
    After a match the scan resumes where it ended (one character further
    when the match was empty, which no pattern of the extractor allows). *)
Fixpoint finditer_from (fuel : nat) (r : regex) (pv : option ascii) (s : string)
  : list mobj :=
  match fuel with
  | O => []
  | S fuel' =>
      match search_from r pv s with
      | None => []
      | Some m =>
          m :: match group0 m, rest (after m) with
               | EmptyString, String c s' => finditer_from fuel' r (Some c) s'
               | EmptyString, EmptyString => []
               | _, s' => finditer_from fuel' r (prev (after m)) s'
               end
      end
  end.

Definition finditer (r : regex) (s : string) : list mobj :=
  finditer_from (S (String.length s)) r None s.

(** [re.findall] for a pattern with exactly one group: the texts of that
    group. *)
Definition findall1 (r : regex) (n : nat) (s : string) : list string :=
  map (fun m => match group m n with Some g => g | None => "" end) (finditer r s).

(** Abbreviations for the usual quantifiers. *)
Definition star (r : regex) : regex := Rep true 0 None r.
Definition plus (r : regex) : regex := Rep true 1 None r.
Definition opt (r : regex) : regex := Rep true 0 (Some 1) r.
Definition star_lazy (r : regex) : regex := Rep false 0 None r.
Definition plus_lazy (r : regex) : regex := Rep false 1 None r.
Definition not_char (c : ascii) : regex := Cls true [CChar c].
Definition digit : regex := Cls false [CDigit].
Definition space : regex := Cls false [CSpace].

Fixpoint seq (rs : list regex) : regex :=
  match rs with
  | [] => Eps
  | [r] => r
  | r :: rs' => Seq r (seq rs')
  end.

Fixpoint alt (rs : list regex) : regex :=
  match rs with
  | [] => Cls false []
  | [r] => r
  | r :: rs' => Alt r (alt rs')
  end.

End Re.

(* ===================================================================== *)
(** * What teachable.py imports *)
(* ===================================================================== *)

(** The helpers of [..utils] and of [InfoExtractor] that work on page text
    are not part of teachable.py; the extractor is modelled over any
    implementation of them. *)
Class Utils : Type := {
  clean_html : string -> string;
  int_or_none : option string -> option Z;
  get_element_by_class : string -> string -> option string;
  get_element_html_by_class : string -> string -> option string;
  extract_attributes : string -> list (string * string);
  strip_or_none : string -> option string;
  urlencode_postdata : list (string * option string) -> string;
  urljoin : string -> string -> string;
  _hidden_inputs : string -> list (string * string);
  _og_search_title : string -> option string
}.

(** What a run can raise. *)
Inductive exn : Type :=
| ExtractorError (msg : string) (expected : bool)
| LoginRequired (msg : string)
| KeyError (key : string)
| IndexError
| AttributeError.

(** The requests an extractor sends to its collaborators: the credential
    store and the HTTP transport. *)
Inductive request : Type :=
| GetLoginInfo (netrc_machine : string)
| DownloadWebpageHandle (url : string)
| DownloadWebpage (url : string) (data : option string)
                  (headers : list (string * string))
| DownloadJson (url : string) (query : list (string * string)).

(** The collaborators. Each answer may depend on every request made
    before it (cookies, server state), given most recent first. *)
Class World : Type := {
  get_login_info : list request -> string -> option string * option string;
  download_webpage_handle :
    list request -> string -> exn + (string * string);
  download_webpage :
    list request -> string -> option string -> list (string * string)
    -> exn + string;
  download_json :
    list request -> string -> list (string * string)
    -> exn + list (string * string)
}.

(** An extractor instance: its [_logged_in] attribute and the requests it
    has made, most recent first. *)
Record ie : Type := mkie {
  logged_in : bool;
  trace : list request
}.

(** Statements run in a state and exception monad. A raise keeps the
    state reached so far. *)
Definition M (A : Type) : Type := ie -> (exn + A) * ie.

Definition ret {A : Type} (a : A) : M A := fun s => (inr a, s).

Definition raise {A : Type} (e : exn) : M A := fun s => (inl e, s).

Definition bind {A B : Type} (c : M A) (k : A -> M B) : M B :=
  fun s =>
    match c s with
    | (inr a, s') => k a s'
    | (inl e, s') => (inl e, s')
    end.

Declare Scope ie_scope.
Delimit Scope ie_scope with ie.
Notation "x <- c ;; k" := (bind c (fun x => k))
  (at level 61, c at next level, right associativity) : ie_scope.
Notation "' p <- c ;; k" := (bind c (fun x => let p := x in k))
  (at level 61, p pattern, c at next level, right associativity) : ie_scope.
Notation "c ;; k" := (bind c (fun _ => k))
  (at level 61, right associativity) : ie_scope.
Open Scope ie_scope.

Definition get_logged_in : M bool := fun s => (inr (logged_in s), s).

Definition set_logged_in (b : bool) : M unit :=
  fun s => (inr tt, mkie b (trace s)).

(** [d[k]] on a dict: KeyError when the key is missing. *)
Definition getitem (d : list (string * string)) (k : string) : M string :=
  match Py.dict_get d k with
  | Some v => ret v
  | None => raise (KeyError k)
  end.

Section Requests.
Context {W : World}.

(** The logging arguments (the notes and the video id shown with them)
    are left out. *)
Definition _get_login_info (netrc_machine : string)
  : M (option string * option string) :=
  fun s =>
    (inr (get_login_info (trace s) netrc_machine),
     mkie (logged_in s) (GetLoginInfo netrc_machine :: trace s)).

Definition _download_webpage_handle (url : string) : M (string * string) :=
  fun s =>
    (download_webpage_handle (trace s) url,
     mkie (logged_in s) (DownloadWebpageHandle url :: trace s)).

Definition _download_webpage (url : string) (data : option string)
    (headers : list (string * string)) : M string :=
  fun s =>
    (download_webpage (trace s) url data headers,
     mkie (logged_in s) (DownloadWebpage url data headers :: trace s)).

Definition _download_json (url : string) (query : list (string * string))
  : M (list (string * string)) :=
  fun s =>
    (download_json (trace s) url query,
     mkie (logged_in s) (DownloadJson url query :: trace s)).
End Requests.

(** Modelled from the spec: [InfoExtractor._search_regex] (common.py, not
    part of teachable.py), as teachable.py calls it: the named group of
    the first match of the first pattern that matches, the default when
    none does. *)
Fixpoint _search_regex (patterns : list Re.regex) (s : string)
    (default : option string) (grp : nat) : option string :=
  match patterns with
  | [] => default
  | p :: ps =>
      match Re.search p s with
      | Some m => Re.group m grp
      | None => _search_regex ps s default grp
      end
  end.

(** Modelled from the spec: [InfoExtractor._html_search_regex], the same
    search with its result cleaned. *)
Definition _html_search_regex `{Utils} (patterns : list Re.regex) (s : string)
    (default : option string) (grp : nat) : option string :=
  option_map clean_html (_search_regex patterns s default grp).

(** Modelled from the spec: [InfoExtractor.raise_login_required]; called
    with a message only, it fails with the login-required error. *)
Definition raise_login_required (msg : string) : M unit :=
  raise (LoginRequired msg).

(** What [InfoExtractor.url_result] and [playlist_result] build. *)
Record url_result : Type := mk_url_result {
  ur_url : string;
  ur_ie : string;
  ur_url_transparent : bool;
  ur_video_id : option string;
  ur_video_title : option string;
  ur_chapter : option string;
  ur_chapter_number : option Z
}.

Record playlist : Type := mk_playlist_result {
  pl_entries : list url_result;
  pl_id : option string;
  pl_title : option string
}.

(** Modelled from the spec: [InfoExtractor.playlist_result] (common.py,
    not part of teachable.py): the playlist of the entries with its id
    and its title. An id or a title that is missing or empty is left out
    of the result. *)
Definition playlist_result (entries : list url_result) (playlist_id : string)
    (playlist_title : option string) : playlist :=
  mk_playlist_result entries
    (if Py.truthy (Some playlist_id) then Some playlist_id else None)
    (if Py.truthy playlist_title then playlist_title else None).

(* ===================================================================== *)
(** * class TeachableBaseIE *)
(* ===================================================================== *)

Module TeachableBaseIE.
Import Re.

Definition _NETRC_MACHINE : string := "teachable".
Definition _URL_PREFIX : string := "teachable:".

Definition _SITES : list (string * string) :=
  [ ("v1.upskillcourses.com", "upskill");
    ("gns3.teachable.com", "gns3");
    ("academyhacker.com", "academyhacker");
    ("stackskills.com", "stackskills");
    ("market.saleshacker.com", "saleshacker");
    ("learnability.org", "learnability");
    ("edurila.com", "edurila");
    ("courses.workitdaily.com", "workitdaily") ].

(** The class of the two quote characters, written [q] in the comments
    that give a pattern's source text. *)
Definition quote : regex := Cls false [CChar Py.dquote; CChar Py.squote].

(** [_VALID_URL_SUB_TUPLE]: the prefix and the alternation of the escaped
    site names, in the order of the table. *)
Definition _VALID_URL_SUB_TUPLE : regex * regex :=
  (Lit _URL_PREFIX, alt (map (fun kv => Lit (fst kv)) _SITES)).

(** The numbers of the named groups of both _VALID_URL patterns. *)
Definition g_site_t : nat := 1.
Definition g_site : nat := 2.
Definition g_id : nat := 3.

(** The part both _VALID_URL patterns start with:
    (?: %s https?://(?P<site_t>[^/]+) | https?://(?:www\.)?(?P<site>%s) ) *)
Definition valid_url_site (sub : regex * regex) : regex :=
  Alt (seq [fst sub; Lit "http"; opt (Lit "s"); Lit "://";
            Grp g_site_t (plus (not_char "/"))])
      (seq [Lit "http"; opt (Lit "s"); Lit "://"; opt (Lit "www.");
            Grp g_site (snd sub)]).

(** The three patterns of [is_logged]:
    class=[q]user-signout,  <a[^>]+\bhref=[q]/sign_out,  Log\s+[Oo]ut\s*< *)
Definition is_logged_patterns : list regex :=
  [ seq [Lit "class="; quote; Lit "user-signout"];
    seq [Lit "<a"; plus (not_char ">"); WordB; Lit "href="; quote;
         Lit "/sign_out"];
    seq [Lit "Log"; plus space; Cls false [CChar "O"; CChar "o"]; Lit "ut";
         star space; Lit "<"] ].

(** <form[^>]+action=([q])(?P<url>(?:(?!\1).)+)\1 *)
Definition post_url_pattern : regex :=
  seq [Lit "<form"; plus (not_char ">"); Lit "action="; Grp 1 quote;
       Grp 2 (plus (Seq (NegLook (Backref 1)) (Dot false))); Backref 1].

Definition privacy_policy_prompt : string :=
  ">I accept the new Privacy Policy<".

Section Methods.
Context {U : Utils} {W : World}.

Definition _real_initialize : M unit := set_logged_in false.

Definition is_logged (webpage : string) : bool :=
  existsb (fun p => found p webpage) is_logged_patterns.

Definition _login (site : string) : M unit :=
  logged <- get_logged_in ;;
  if logged then ret tt else
  ' (username, password) <-
      _get_login_info
        (match Py.dict_get _SITES site with Some m => m | None => site end) ;;
  match username with
  | None => ret tt
  | Some username =>
      ' (login_page, urlh) <-
          _download_webpage_handle ("https://" ++ site ++ "/sign_in") ;;
      if is_logged login_page then set_logged_in true else
      let login_url := urlh in
      let login_form :=
        map (fun kv => (fst kv, Some (snd kv))) (_hidden_inputs login_page) in
      let login_form :=
        Py.dict_set (Py.dict_set login_form "email" (Some username))
                    "password" password in
      let post_url :=
        match _search_regex [post_url_pattern] login_page (Some login_url) 2 with
        | Some u => u
        | None => login_url
        end in
      let post_url :=
        if negb (Py.startswith post_url "http")
        then urljoin login_url post_url else post_url in
      response <-
        _download_webpage post_url (Some (urlencode_postdata login_form))
          [("Content-Type", "application/x-www-form-urlencoded");
           ("Referer", login_url)] ;;
      if Py.str_in privacy_policy_prompt response then
        raise (ExtractorError
                 ("Unable to login: " ++ site
                  ++ " asks you to accept new Privacy Policy. Go to https://"
                  ++ site ++ "/ and accept.") true)
      else
      (* Successful login *)
      if is_logged response then set_logged_in true else
      match get_element_by_class "auth-flash-error" response with
      | Some message =>
          raise (ExtractorError
                   ("Unable to login: " ++ clean_html message) true)
      | None => raise (ExtractorError "Unable to log in" false)
      end
  end.
End Methods.

End TeachableBaseIE.

(* ===================================================================== *)
(** * class TeachableIE(TeachableBaseIE) *)
(* ===================================================================== *)

Module TeachableIE.
Import Re.
Import TeachableBaseIE.

(** [ie_key()] of the class. *)
Definition ie_key : string := "Teachable".

(** (?x) <site part> /courses/[^/]+/lectures/(?P<id>\d+) *)
Definition _VALID_URL : regex :=
  Seq (valid_url_site _VALID_URL_SUB_TUPLE)
      (seq [Lit "/courses/"; plus (not_char "/"); Lit "/lectures/";
            Grp g_id (plus digit)]).

(** Modelled from the spec: [InfoExtractor._match_valid_url] and
    [InfoExtractor.suitable] (common.py): a URL suits an extractor when
    its _VALID_URL matches at the start of the URL. *)
Definition _match_valid_url (url : string) : option mobj := match_ _VALID_URL url.

Definition suitable (url : string) : bool :=
  match _match_valid_url url with Some _ => true | None => false end.

(** The locked-content patterns of [_create_hotmart_url]:
    class=[q]lecture-contents-locked,  >\s*Lecture contents locked,
    id=[q]lecture-locked,  class=[q](?:inner-)?lesson-locked,
    >LESSON LOCKED< *)
Definition locked_patterns : list regex :=
  [ seq [Lit "class="; quote; Lit "lecture-contents-locked"];
    seq [Lit ">"; star space; Lit "Lecture contents locked"];
    seq [Lit "id="; quote; Lit "lecture-locked"];
    seq [Lit "class="; quote; opt (Lit "inner-"); Lit "lesson-locked"];
    Lit ">LESSON LOCKED<" ].

(** <link[^>]+href=[q]https?://(?:process\.fs|assets)\.teachablecdn\.com *)
Definition teachable_cdn_pattern : regex :=
  seq [Lit "<link"; plus (not_char ">"); Lit "href="; quote; Lit "http";
       opt (Lit "s"); Lit "://"; Alt (Lit "process.fs") (Lit "assets");
       Lit ".teachablecdn.com"].

(** https?://[^/]+/(?:courses|p) *)
Definition source_url_pattern : regex :=
  seq [Lit "http"; opt (Lit "s"); Lit "://"; plus (not_char "/"); Lit "/";
       Alt (Lit "courses") (Lit "p")].

(** The static methods. [_is_teachable] is only used for its truth
    value. *)
Definition _is_teachable (webpage : string) : bool :=
  Py.str_in "teachableTracker.linker:autoLink" webpage
  && found teachable_cdn_pattern webpage.

Definition _extract_url (webpage source_url : string) : option string :=
  if negb (_is_teachable webpage) then None
  else
    match match_ source_url_pattern source_url with
    | Some _ => Some (_URL_PREFIX ++ source_url)
    | None => None
    end.

(** (?s)(?P<li><li[^>]+\bdata-lecture-id=[q]%s[^>]+>.+?</li>) % video_id *)
Definition section_item_pattern (video_id : string) : regex :=
  Grp 1 (seq [Lit "<li"; plus (not_char ">"); WordB; Lit "data-lecture-id=";
              quote; Lit video_id; plus (not_char ">"); Lit ">";
              plus_lazy (Dot true); Lit "</li>"]).

(** data-ss-position=[q](\d+) *)
Definition ss_position_pattern : regex :=
  seq [Lit "data-ss-position="; quote; Grp 1 (plus digit)].

(** (?s)<div[^>]+\bclass=[q]section-title[^>]+>(.+?)</div> *)
Definition section_title_pattern : regex :=
  seq [Lit "<div"; plus (not_char ">"); WordB; Lit "class="; quote;
       Lit "section-title"; plus (not_char ">"); Lit ">";
       Grp 1 (plus_lazy (Dot true)); Lit "</div>"].

Section Methods.
Context {U : Utils} {W : World}.

Definition _create_hotmart_url (webpage video_id site : string) : M string :=
  match get_element_html_by_class "hotmart_video_player" webpage with
  | None =>
      (if existsb (fun p => found p webpage) locked_patterns
       then raise_login_required "Lecture contents locked"
       else ret tt) ;;
      raise (ExtractorError "Unable to find Hotmart video container" false)
  | Some hotmart_container_element =>
      let hotmart_container_attributes :=
        extract_attributes hotmart_container_element in
      attachment_id <- getitem hotmart_container_attributes "data-attachment-id" ;;
      hotmart_video_url_data <-
        _download_json ("https://" ++ site ++ "/api/v2/hotmart/private_video")
                       [("attachment_id", attachment_id)] ;;
      v <- getitem hotmart_video_url_data "video_id" ;;
      sg <- getitem hotmart_video_url_data "signature" ;;
      tk <- getitem hotmart_video_url_data "teachable_application_key" ;;
      ret ("https://player.hotmart.com/embed/" ++ v ++ "?"
           ++ "signature=" ++ sg ++ "&"
           ++ "token=" ++ tk)
  end.

(** The loop over the section titles: a title that cleans to nothing
    empties the list and leaves the loop. *)
Fixpoint collect_sections (titles : list string) (sections : list string)
  : list string :=
  match titles with
  | [] => sections
  | s :: titles' =>
      let section := strip_or_none (clean_html s) in
      if negb (Py.truthy section) then [] (* sections = []; break *)
      else
        collect_sections titles'
          (sections ++ [match section with Some sec => sec | None => "" end])%list
  end.

(** The [if chapter_number <= len(sections)] statement. *)
Definition pick_chapter (chapter_number : Z) (sections : list string)
  : M (option string) :=
  if (chapter_number <=? Z.of_nat (List.length sections))%Z then
    match Py.index sections (chapter_number - 1) with
    | Some c => ret (Some c)
    | None => raise IndexError
    end
  else ret None.

(** Lines 204 to 223: the chapter and its number. *)
Definition chapter_info (webpage video_id : string)
  : M (option string * option Z) :=
  match _search_regex [section_item_pattern video_id] webpage None 1 with
  | Some section_item =>
      if negb (String.eqb section_item "") then
        let chapter_number :=
          int_or_none
            (_search_regex [ss_position_pattern] section_item None 1) in
        match chapter_number with
        | Some n =>
            let sections :=
              collect_sections (findall1 section_title_pattern 1 webpage) [] in
            chapter <- pick_chapter n sections ;;
            ret (chapter, chapter_number)
        | None => ret (None, chapter_number)
        end
      else ret (None, None)
  | None => ret (None, None)
  end.

Definition _real_extract (url : string) : M url_result :=
  match _match_valid_url url with
  | None => raise AttributeError
  | Some mobj =>
      match Py.or_ (group mobj g_site) (group mobj g_site_t),
            group mobj g_id with
      | Some site, Some video_id =>
          _login site ;;
          let prefixed := Py.startswith url _URL_PREFIX in
          let url :=
            if prefixed then Py.drop (String.length _URL_PREFIX) url
            else url in
          webpage <- _download_webpage url None [] ;;
          hotmart_url <- _create_hotmart_url webpage video_id site ;;
          let title := _og_search_title webpage in
          ' (chapter, chapter_number) <- chapter_info webpage video_id ;;
          (* TODO Make Hotmart Extractor and change ie to point to that *)
          ret (mk_url_result hotmart_url "Generic" true (Some video_id)
                             title chapter chapter_number)
      | _, _ => raise AttributeError
      end
  end.
End Methods.

End TeachableIE.

(* ===================================================================== *)
(** * class TeachableCourseIE(TeachableBaseIE) *)
(* ===================================================================== *)

Module TeachableCourseIE.
Import Re.
Import TeachableBaseIE.

(** (?x) <site part> /(?:courses|p)/(?:enrolled/)?(?P<id>[^/?#&]+) *)
Definition _VALID_URL : regex :=
  Seq (valid_url_site _VALID_URL_SUB_TUPLE)
      (seq [Lit "/"; Alt (Lit "courses") (Lit "p"); Lit "/";
            opt (Lit "enrolled/");
            Grp g_id (plus (Cls true [CChar "/"; CChar "?"; CChar "#";
                                      CChar "&"]))]).

(** Modelled from the spec: [InfoExtractor._match_valid_url], and
    [InfoExtractor.suitable] under the name [super_suitable]. *)
Definition _match_valid_url (url : string) : option mobj := match_ _VALID_URL url.

Definition super_suitable (url : string) : bool :=
  match _match_valid_url url with Some _ => true | None => false end.

Definition suitable (url : string) : bool :=
  if TeachableIE.suitable url then false else super_suitable url.

(** (?s)(?P<li><li[^>]+class=([q])(?:(?!\2).)*?section-item[^>]+>.+?</li>) *)
Definition li_pattern : regex :=
  Grp 1 (seq [Lit "<li"; plus (not_char ">"); Lit "class="; Grp 2 quote;
              star_lazy (Seq (NegLook (Backref 2)) (Dot true));
              Lit "section-item"; plus (not_char ">"); Lit ">";
              plus_lazy (Dot true); Lit "</li>"]).

(** \d{1,2}:\d{2} *)
Definition duration_pattern : regex :=
  seq [Rep true 1 (Some 2) digit; Lit ":"; Rep true 2 (Some 2) digit].

(** <a[^>]+href=([q])(?P<url>(?:(?!\1).)+)\1 *)
Definition lecture_url_pattern : regex :=
  seq [Lit "<a"; plus (not_char ">"); Lit "href="; Grp 1 quote;
       Grp 2 (plus (Seq (NegLook (Backref 1)) (Dot false))); Backref 1].

(** /lectures/(\d+) *)
Definition lecture_id_pattern : regex :=
  seq [Lit "/lectures/"; Grp 1 (plus digit)].

(** <span[^>]+class=[q]lecture-name[^>]+>([^<]+) *)
Definition lecture_name_pattern : regex :=
  seq [Lit "<span"; plus (not_char ">"); Lit "class="; quote;
       Lit "lecture-name"; plus (not_char ">"); Lit ">";
       Grp 1 (plus (not_char "<"))].

(** (?s)<img[^>]+class=[q]course-image[^>]+>\s*<h\d>(.+?)</h   and
    (?s)<h\d[^>]+class=[q]course-title[^>]+>(.+?)</h *)
Definition course_title_patterns : list regex :=
  [ seq [Lit "<img"; plus (not_char ">"); Lit "class="; quote;
         Lit "course-image"; plus (not_char ">"); Lit ">"; star space;
         Lit "<h"; digit; Lit ">"; Grp 1 (plus_lazy (Dot true)); Lit "</h"];
    seq [Lit "<h"; digit; plus (not_char ">"); Lit "class="; quote;
         Lit "course-title"; plus (not_char ">"); Lit ">";
         Grp 1 (plus_lazy (Dot true)); Lit "</h"] ].

Section Methods.
Context {U : Utils} {W : World}.

(** The body of the loop over the section items, [entries] being the
    list built so far. *)
Fixpoint entries_loop (prefixed : bool) (url_base : string)
    (items : list mobj) (entries : list url_result) : list url_result :=
  match items with
  | [] => entries
  | mobj :: items' =>
      let li := match group mobj 1 with Some li => li | None => "" end in
      if negb (Py.str_in "fa-youtube-play" li)
         && negb (found duration_pattern li)
      then entries_loop prefixed url_base items' entries (* continue *)
      else
        let lecture_url := _search_regex [lecture_url_pattern] li None 2 in
        if negb (Py.truthy lecture_url)
        then entries_loop prefixed url_base items' entries (* continue *)
        else
          let lecture_url :=
            match lecture_url with Some u => u | None => "" end in
          let lecture_id :=
            _search_regex [lecture_id_pattern] lecture_url None 1 in
          let title :=
            _html_search_regex [lecture_name_pattern] li None 1 in
          let entry_url := urljoin url_base lecture_url in
          let entry_url :=
            if prefixed then _URL_PREFIX ++ entry_url else entry_url in
          entries_loop prefixed url_base items'
            (entries ++ [mk_url_result entry_url TeachableIE.ie_key false
                           lecture_id (option_map clean_html title)
                           None None])%list
  end.

Definition _real_extract (url : string) : M playlist :=
  match _match_valid_url url with
  | None => raise AttributeError
  | Some mobj =>
      match Py.or_ (group mobj g_site) (group mobj g_site_t),
            group mobj g_id with
      | Some site, Some course_id =>
          _login site ;;
          let prefixed := Py.startswith url _URL_PREFIX in
          let url :=
            if prefixed then Py.drop (String.length _URL_PREFIX) url
            else url in
          webpage <- _download_webpage url None [] ;;
          let url_base := "https://" ++ site ++ "/" in
          let entries :=
            entries_loop prefixed url_base (finditer li_pattern webpage) [] in
          let course_title :=
            _html_search_regex course_title_patterns webpage None 1 in
          ret (playlist_result entries course_id course_title)
      | _, _ => raise AttributeError
      end
  end.
End Methods.

End TeachableCourseIE.

(* ===================================================================== *)
(** * Page fixtures *)
(* ===================================================================== *)

(** Stand-ins for the imported helpers, enough to run the extractor on the
    pages of the examples below. The properties are proved for every
    [Utils]; the stand-ins only serve to evaluate them. *)
Module Fixture.
Import Re.
Import TeachableBaseIE.

Fixpoint lstrip (s : string) : string :=
  match s with
  | String c s' => if is_space c then lstrip s' else s
  | EmptyString => EmptyString
  end.

Definition reverse (s : string) : string :=
  string_of_list_ascii (rev (list_ascii_of_string s)).

(** [s.strip()] *)
Definition strip (s : string) : string := reverse (lstrip (reverse (lstrip s))).

Fixpoint digits_value (s : string) (acc : Z) : option Z :=
  match s with
  | EmptyString => Some acc
  | String c s' =>
      if is_digit c
      then digits_value s' (10 * acc + Z.of_nat (code c - 48))%Z
      else None
  end.

Definition word_run : regex := plus (Cls false [CWord; CChar "-"]).

(** An element with exactly the class asked for and no element of the same
    tag inside: <(\w+)[^>]*class=[q]CLS[q][^>]*>(.*?)</\1> *)
Definition element_pattern (cls : string) : regex :=
  seq [Lit "<"; Grp 1 word_run; star (not_char ">"); Lit "class="; quote;
       Lit cls; quote; star (not_char ">"); Lit ">";
       Grp 2 (star_lazy (Dot true)); Lit "</"; Backref 1; Lit ">"].

(** name=[q]value[q] *)
Definition attribute_pattern : regex :=
  seq [Grp 1 word_run; Lit "="; Grp 2 quote;
       Grp 3 (star_lazy (Seq (NegLook (Backref 2)) (Dot true))); Backref 2].

Definition attributes (tag : string) : list (string * string) :=
  map (fun m => (match group m 1 with Some k => k | None => "" end,
                 match group m 3 with Some v => v | None => "" end))
      (finditer attribute_pattern tag).

Fixpoint hidden_of (inputs : list mobj) : list (string * string) :=
  match inputs with
  | [] => []
  | m :: inputs' =>
      let attrs := attributes (group0 m) in
      match Py.dict_get attrs "type", Py.dict_get attrs "name",
            Py.dict_get attrs "value" with
      | Some t, Some n, Some v =>
          if String.eqb t "hidden" || String.eqb t "submit"
          then (n, v) :: hidden_of inputs'
          else hidden_of inputs'
      | _, _, _ => hidden_of inputs'
      end
  end.

(** A scheme at the start of a reference: [a-zA-Z][a-zA-Z0-9+.-]*: *)
Definition scheme_pattern : regex :=
  seq [Cls false [CRange "a" "z"; CRange "A" "Z"];
       star (Cls false [CRange "a" "z"; CRange "A" "Z"; CRange "0" "9";
                        CChar "+"; CChar "-"; CChar "."]);
       Lit ":"].

Definition origin_pattern : regex :=
  seq [Lit "http"; opt (Lit "s"); Lit "://"; plus (not_char "/")].

Definition og_title_pattern : regex :=
  seq [Lit "<meta"; plus (not_char ">"); Lit "property="; quote;
       Lit "og:title"; quote; plus (not_char ">"); Lit "content="; Grp 1 quote;
       Grp 2 (plus (Seq (NegLook (Backref 1)) (Dot false))); Backref 1].

#[export] Instance utils : Utils := {|
  clean_html := strip;
  int_or_none := fun v =>
    match v with
    | Some (String c s) => digits_value (String c s) 0%Z
    | _ => None
    end;
  get_element_by_class := fun cls html =>
    match search (element_pattern cls) html with
    | Some m => group m 2
    | None => None
    end;
  get_element_html_by_class := fun cls html =>
    match search (element_pattern cls) html with
    | Some m => Some (group0 m)
    | None => None
    end;
  extract_attributes := attributes;
  strip_or_none := fun s => Some (strip s);
  urlencode_postdata := fun form =>
    Py.join "&"
      (map (fun kv => fst kv ++ "="
                      ++ match snd kv with Some v => v | None => "None" end)
           form);
  urljoin := fun base path =>
    if Py.startswith path "http" then path
    else if match match_ scheme_pattern path with
            | Some _ => true
            | None => false
            end
    then path (* a reference with a scheme of its own is left as it is *)
    else if Py.startswith path "/" then
      match match_ origin_pattern base with
      | Some m => group0 m ++ path
      | None => path
      end
    else base ++ path;
  _hidden_inputs := fun html =>
    hidden_of (finditer (seq [Lit "<input"; plus (not_char ">"); Lit ">"]) html);
  _og_search_title := fun html =>
    _search_regex [og_title_pattern] html None 2
|}.

End Fixture.

(* ===================================================================== *)
(** * Scenarios *)
(* ===================================================================== *)

Module Scenario.

(** A transport whose answers are fixed: one sign-in page, one answer to
    any POST, one page for any other GET, one JSON document. *)
Definition world (creds : option string * option string)
    (sign_in_page post_answer page : string) (json : list (string * string))
  : World := {|
  get_login_info := fun _ _ => creds;
  download_webpage_handle := fun _ url => inr (sign_in_page, url);
  download_webpage := fun _ _ data _ =>
    inr (match data with Some _ => post_answer | None => page end);
  download_json := fun _ _ _ => inr json
|}.

(** An extractor instance right after [_real_initialize]. *)
Definition fresh : ie := mkie false [].

Definition user : option string * option string := (Some "ada", Some "s3cret").

Definition gns3 : string := "gns3.teachable.com".
Definition stackskills : string := "stackskills.com".

Definition sign_in_form : string :=
  "<form action='/sign_in' method='post'>"
  ++ "<input type='hidden' name='authenticity_token' value='tok'>"
  ++ "<input type='email' name='email'></form>".

Definition signed_in_page : string := "<a href='/sign_out'>Log Out</a>".

Definition rejected_page : string :=
  "<div class='auth-flash-error'>Invalid email or password.</div>".

Definition privacy_page : string :=
  "<button>I accept the new Privacy Policy</button>"
  ++ "<a href='/sign_out'>Log Out</a>".

(** Credentials accepted, credentials rejected, a pending policy, and no
    credentials at all. *)
Definition accepting : World := world user sign_in_form signed_in_page "" [].
Definition rejecting : World := world user sign_in_form rejected_page "" [].
Definition pending_policy : World := world user sign_in_form privacy_page "" [].
Definition anonymous : World := world (None, None) sign_in_form signed_in_page "" [].

(** A lecture page: the video container, the list item of the lecture
    with its section position, and the section titles. *)
Definition title_div (t : string) : string :=
  "<div class='section-title' role='heading'>" ++ t ++ "</div>".

Definition lecture_page (position : string) (titles : list string) : string :=
  "<meta property='og:title' content='Overview'>"
  ++ "<div class='hotmart_video_player' data-attachment-id='777'></div>"
  ++ "<ul><li class='section-item' data-lecture-id='6842364' data-ss-position='"
  ++ position ++ "'>Overview</li></ul>"
  ++ Py.join "" (map title_div titles).

Definition lecture_url : string :=
  "https://gns3.teachable.com/courses/gns3-certified-associate/lectures/6842364".

Definition private_video : list (string * string) :=
  [("video_id", "vid"); ("signature", "sig");
   ("teachable_application_key", "key")].

Definition lecture_world (position : string) (titles : list string) : World :=
  world (None, None) "" "" (lecture_page position titles) private_video.

(** Lecture pages without the video container. *)
Definition locked_page : string :=
  "<div class='lecture-contents-locked'>Lecture contents locked</div>".

Definition empty_page : string := "<p>Nothing to see</p>".

(** A course page with five section items; the body of the third one is
    left open. *)
Definition item (body : string) : string :=
  "<li class='section-item'>" ++ body ++ "</li>".

Definition name (n : string) : string :=
  "<span class='lecture-name'>" ++ n ++ "</span>".

Definition play : string := "<i class='fa fa-youtube-play'></i>".

Definition link (href body : string) : string :=
  "<a href='" ++ href ++ "'>" ++ body ++ "</a>".

Definition course_page (third : string) : string :=
  "<h2 class='course-title'>GNS3 Certified Associate</h2><ul>"
  ++ item (link "/courses/gns3/lectures/101" (play ++ name "Overview (12:16)"))
  ++ item (link "/courses/gns3/lectures/102" (name "Quiz"))
  ++ item third
  ++ item (name "Notes")
  ++ item (link "/courses/gns3/lectures/105" (name "Setup (3:05)"))
  ++ "</ul>".

(** The third item with a play icon and a link, and with a play icon
    only. *)
Definition linked : string :=
  link "/courses/gns3/lectures/103" (play ++ name "Install").

Definition unlinked : string := play ++ name "Coming soon".

(** The third item with a play icon and a link that carries the escape
    prefix itself. *)
Definition foreign_url : string :=
  "teachable:https://academy.example/courses/c/lectures/7".

Definition foreign : string := link foreign_url (play ++ name "Elsewhere").

Definition course_world (third : string) : World :=
  world (None, None) "" "" (course_page third) [].

Definition course_url : string :=
  "https://gns3.teachable.com/courses/enrolled/423415".

(** A course page whose title heading holds only a blank. *)
Definition blank_title_page : string :=
  "<h2 class='course-title'> </h2><ul>"
  ++ item (link "/courses/gns3/lectures/101" (play ++ name "Overview"))
  ++ "</ul>".

Definition blank_title_world : World :=
  world (None, None) "" "" blank_title_page [].

Definition prefixed_course_url : string :=
  "teachable:https://learn.vrdev.school/p/gear-vr-developer-mini".

(** A site that restores the session: its sign-in page already shows the
    sign-out link. *)
Definition restoring : World := world user signed_in_page "" "" [].

(** A transport on which every page request fails. *)
Definition not_found : exn := ExtractorError "HTTP Error 404: Not Found" false.

Definition offline : World := {|
  get_login_info := fun _ _ => (None, None);
  download_webpage_handle := fun _ _ => inl not_found;
  download_webpage := fun _ _ _ _ => inl not_found;
  download_json := fun _ _ _ => inl not_found
|}.

(** A lecture page whose container has no attachment id, and an API that
    answers without a signature. *)
Definition bare_container_page : string :=
  "<div class='hotmart_video_player'></div>".

Definition unsigned_api : World :=
  world (None, None) "" "" (lecture_page "1" ["Welcome"])
        [("video_id", "vid"); ("teachable_application_key", "key")].

(** A page of a Teachable school, as [_is_teachable] recognises it, and
    the URL it was found at. *)
Definition school_page : string :=
  "<script>teachableTracker.linker:autoLink</script>"
  ++ "<link rel='stylesheet' href='https://assets.teachablecdn.com/a.css'>".

Definition school_url : string := "https://learn.example.org/courses/intro".

End Scenario.

(* ===================================================================== *)
(** * Vocabulary of the properties *)
(* ===================================================================== *)

Section LoginVocabulary.
Context {U : Utils} {W : World}.
Import TeachableBaseIE.

(** The three requests of a login handshake, as [_login] builds them. *)
Definition netrc_machine (site : string) : string :=
  match Py.dict_get _SITES site with Some m => m | None => site end.

Definition sign_in (site : string) : request :=
  DownloadWebpageHandle ("https://" ++ site ++ "/sign_in").

Definition login_post_url (login_page login_url : string) : string :=
  let post_url :=
    match _search_regex [post_url_pattern] login_page (Some login_url) 2 with
    | Some u => u
    | None => login_url
    end in
  if negb (Py.startswith post_url "http")
  then urljoin login_url post_url else post_url.

Definition login_post_data (login_page username : string)
    (password : option string) : option string :=
  Some (urlencode_postdata
          (Py.dict_set
             (Py.dict_set
                (map (fun kv => (fst kv, Some (snd kv)))
                     (_hidden_inputs login_page))
                "email" (Some username))
             "password" password)).

Definition login_post_headers (login_url : string) : list (string * string) :=
  [("Content-Type", "application/x-www-form-urlencoded");
   ("Referer", login_url)].

Definition login_post (login_page login_url username : string)
    (password : option string) : request :=
  DownloadWebpage (login_post_url login_page login_url)
                  (login_post_data login_page username password)
                  (login_post_headers login_url).

Definition privacy_policy_error (site : string) : exn :=
  ExtractorError
    ("Unable to login: " ++ site
     ++ " asks you to accept new Privacy Policy. Go to https://"
     ++ site ++ "/ and accept.") true.

(** What [_login] makes of the answer to its POST: the result, and the
    value [_logged_in] is left with. *)
Inductive post_outcome (site : string) : exn + string -> exn + unit -> bool -> Prop :=
| post_failed e :
    post_outcome site (inl e) (inl e) false
| post_privacy_policy response :
    Py.str_in privacy_policy_prompt response = true ->
    post_outcome site (inr response) (inl (privacy_policy_error site)) false
| post_logged response :
    Py.str_in privacy_policy_prompt response = false ->
    is_logged response = true ->
    post_outcome site (inr response) (inr tt) true
| post_flash_error response message :
    Py.str_in privacy_policy_prompt response = false ->
    is_logged response = false ->
    get_element_by_class "auth-flash-error" response = Some message ->
    post_outcome site (inr response)
      (inl (ExtractorError ("Unable to login: " ++ clean_html message) true))
      false
| post_unable response :
    Py.str_in privacy_policy_prompt response = false ->
    is_logged response = false ->
    get_element_by_class "auth-flash-error" response = None ->
    post_outcome site (inr response)
      (inl (ExtractorError "Unable to log in" false)) false.

(** Every way a call of [_login site] can go from state [s]: its result
    and the state it leaves. *)
Inductive login_run (site : string) (s : ie) : exn + unit -> ie -> Prop :=
| run_already :
    logged_in s = true ->
    login_run site s (inr tt) s
| run_anonymous password :
    logged_in s = false ->
    get_login_info (trace s) (netrc_machine site) = (None, password) ->
    login_run site s (inr tt)
      (mkie false (GetLoginInfo (netrc_machine site) :: trace s))
| run_sign_in_failed username password tr1 e :
    logged_in s = false ->
    get_login_info (trace s) (netrc_machine site) = (Some username, password) ->
    tr1 = GetLoginInfo (netrc_machine site) :: trace s ->
    download_webpage_handle tr1 ("https://" ++ site ++ "/sign_in") = inl e ->
    login_run site s (inl e) (mkie false (sign_in site :: tr1))
| run_restored username password tr1 login_page urlh :
    logged_in s = false ->
    get_login_info (trace s) (netrc_machine site) = (Some username, password) ->
    tr1 = GetLoginInfo (netrc_machine site) :: trace s ->
    download_webpage_handle tr1 ("https://" ++ site ++ "/sign_in")
      = inr (login_page, urlh) ->
    is_logged login_page = true ->
    login_run site s (inr tt) (mkie true (sign_in site :: tr1))
| run_posted username password tr1 tr2 login_page urlh answer r b :
    logged_in s = false ->
    get_login_info (trace s) (netrc_machine site) = (Some username, password) ->
    tr1 = GetLoginInfo (netrc_machine site) :: trace s ->
    download_webpage_handle tr1 ("https://" ++ site ++ "/sign_in")
      = inr (login_page, urlh) ->
    is_logged login_page = false ->
    tr2 = sign_in site :: tr1 ->
    download_webpage tr2 (login_post_url login_page urlh)
      (login_post_data login_page username password)
      (login_post_headers urlh) = answer ->
    post_outcome site answer r b ->
    login_run site s r
      (mkie b (login_post login_page urlh username password :: tr2)).

(** The pages the transport answered to the [n] most recent requests of
    a trace, most recent first. *)
Definition answer_page (r : request) (before : list request) : option string :=
  match r with
  | DownloadWebpageHandle url =>
      match download_webpage_handle before url with
      | inr (page, _) => Some page
      | inl _ => None
      end
  | DownloadWebpage url data headers =>
      match download_webpage before url data headers with
      | inr page => Some page
      | inl _ => None
      end
  | _ => None
  end.

Fixpoint pages_fetched (n : nat) (tr : list request) : list string :=
  match n, tr with
  | S n', r :: tr' =>
      match answer_page r tr' with
      | Some page => page :: pages_fetched n' tr'
      | None => pages_fetched n' tr'
      end
  | _, _ => []
  end.

(** The number of login handshakes started (sign-in pages asked for) and
    of login forms posted along a trace. *)
Definition is_sign_in (r : request) : bool :=
  match r with DownloadWebpageHandle _ => true | _ => false end.

Definition is_post (r : request) : bool :=
  match r with DownloadWebpage _ (Some _) _ => true | _ => false end.

Definition sign_ins (tr : list request) : nat := List.length (filter is_sign_in tr).
Definition posts (tr : list request) : nat := List.length (filter is_post tr).
End LoginVocabulary.

Section LectureVocabulary.
Context {U : Utils}.
Import TeachableIE.

(** A section title as the loop sees it. *)
Definition cleaned (s : string) : option string := strip_or_none (clean_html s).

Definition title_text (s : string) : string :=
  match cleaned s with Some t => t | None => "" end.

(** The reference definition of the specification, in its words: titles
    are collected in document order; at an empty title everything
    collected so far is discarded and the scan goes on with the next
    title; the chapter title is the entry at the 1-based position
    [chapter_number] of what survives, when there is one. *)
Fixpoint spec_surviving_titles (titles : list string) (kept : list string)
  : list string :=
  match titles with
  | [] => kept
  | s :: titles' =>
      if Py.truthy (cleaned s)
      then spec_surviving_titles titles' (kept ++ [title_text s])%list
      else spec_surviving_titles titles' []
  end.

Definition spec_chapter_title (titles : list string) (chapter_number : Z)
  : option string :=
  let surviving := spec_surviving_titles titles [] in
  if ((1 <=? chapter_number)
      && (chapter_number <=? Z.of_nat (List.length surviving)))%Z
  then nth_error surviving (Z.to_nat (chapter_number - 1))
  else None.
End LectureVocabulary.

Section CourseVocabulary.
Context {U : Utils}.
Import TeachableBaseIE TeachableCourseIE.

(** The site and the course id [_real_extract] reads off a URL. *)
Definition course_url_parts (url : string)
  : option (option string * option string) :=
  option_map
    (fun m => (Py.or_ (Re.group m g_site) (Re.group m g_site_t),
               Re.group m g_id))
    (_match_valid_url url).

(** The URL of the page it fetches. *)
Definition page_url (url : string) : string :=
  if Py.startswith url _URL_PREFIX
  then Py.drop (String.length _URL_PREFIX) url else url.

(** The section items of a page, in document order. *)
Definition section_items (webpage : string) : list string :=
  map (fun m => match Re.group m 1 with Some li => li | None => "" end)
      (Re.finditer li_pattern webpage).

(** An item with neither the play icon nor a duration. *)
Definition lacks_markers (li : string) : bool :=
  negb (Py.str_in "fa-youtube-play" li) && negb (Re.found duration_pattern li).

(** The href of its first anchor. *)
Definition anchor (li : string) : option string :=
  _search_regex [lecture_url_pattern] li None 2.

Definition emitted (li : string) : bool :=
  negb (lacks_markers li) && Py.truthy (anchor li).

(** The href a reference is built from: the anchor of its section
    item. *)
Definition lecture_href (li : string) : string :=
  match anchor li with Some u => u | None => "" end.

(** The reference built for an item that has an anchor. *)
Definition reference (prefixed : bool) (url_base li : string) : url_result :=
  let lecture_url := match anchor li with Some u => u | None => "" end in
  mk_url_result
    (if prefixed then _URL_PREFIX ++ urljoin url_base lecture_url
     else urljoin url_base lecture_url)
    TeachableIE.ie_key false
    (_search_regex [lecture_id_pattern] lecture_url None 1)
    (option_map clean_html
       (_html_search_regex [lecture_name_pattern] li None 1))
    None None.

Definition course_title (webpage : string) : option string :=
  _html_search_regex course_title_patterns webpage None 1.
End CourseVocabulary.

(** ** What a pattern can read

    A declarative reading of the patterns, looser than the matcher: the
    order of preference among the matches is forgotten. Every match the
    matcher finds is one of them ([run_sound] below). *)

Module ReSem.
Import Re.

(** Iterating a one-step relation, counting the iterations. *)
Inductive iter (one : pos -> pos -> Prop) (lo : nat) (hi : option nat)
  : nat -> pos -> pos -> Prop :=
| iter_stop count p : lo <= count -> iter one lo hi count p p
| iter_more count p p1 p2 :
    below count hi = true -> one p p1 -> iter one lo hi (S count) p1 p2 ->
    iter one lo hi count p p2.

#[local] Set Warnings "-register-all".

Inductive matches : regex -> pos -> pos -> Prop :=
| m_eps p : matches Eps p p
| m_lit s p p' : eat s p = Some p' -> matches (Lit s) p p'
| m_cls neg items p c p' :
    step p = Some (c, p') -> xorb neg (existsb (in_item c) items) = true ->
    matches (Cls neg items) p p'
| m_dot dotall p c p' :
    step p = Some (c, p') ->
    dotall || negb (Ascii.eqb c "010"%char) = true ->
    matches (Dot dotall) p p'
| m_seq r1 r2 p p1 p2 :
    matches r1 p p1 -> matches r2 p1 p2 -> matches (Seq r1 r2) p p2
| m_alt_l r1 r2 p p' : matches r1 p p' -> matches (Alt r1 r2) p p'
| m_alt_r r1 r2 p p' : matches r2 p p' -> matches (Alt r1 r2) p p'
| m_rep greedy lo hi r p p' :
    iter (matches r) lo hi 0 p p' -> matches (Rep greedy lo hi r) p p'
| m_grp n r p p' :
    matches r p p' -> matches (Grp n r) p (bind_group n p p')
| m_backref n s p p' :
    group_of (caps p) n = Some s -> eat s p = Some p' ->
    matches (Backref n) p p'
| m_neglook r p :
    run r p (fun _ => Some tt) = None -> matches (NegLook r) p p
| m_wordb p : at_boundary p = true -> matches WordB p p.

(** The loop of a repetition, as [run] writes it, over any way of
    running the repeated pattern. *)
Definition rep_loop (R : Type) (run_r : pos -> (pos -> option R) -> option R)
    (greedy : bool) (lo : nat) (hi : option nat) (k : pos -> option R)
  : nat -> nat -> pos -> option R :=
  fix loop (fuel count : nat) (p : pos) {struct fuel} : option R :=
    match fuel with
    | O => None
    | S fuel' =>
        let again (_ : unit) :=
          if below count hi then
            run_r p (fun p' =>
              if (lo <=? count) && (remaining p <=? remaining p')
              then None
              else loop fuel' (S count) p')
          else None in
        let stop (_ : unit) := if lo <=? count then k p else None in
        if greedy then
          match again tt with Some x => Some x | None => stop tt end
        else
          match stop tt with Some x => Some x | None => again tt end
    end.

Fixpoint all_chars (f : ascii -> bool) (s : string) : bool :=
  match s with
  | EmptyString => true
  | String c s' => f c && all_chars f s'
  end.

Fixpoint groupless (r : regex) : bool :=
  match r with
  | Seq r1 r2 | Alt r1 r2 => groupless r1 && groupless r2
  | Rep _ _ _ r' => groupless r'
  | Grp _ _ => false
  | _ => true
  end.

Definition no_slash (c : ascii) : bool := negb (Ascii.eqb c "/").

Definition only_digits (s : string) : bool := all_chars Re.is_digit s.

(** The characters a course id is made of: [^/?#&]. *)
Definition id_char (c : ascii) : bool :=
  negb (Ascii.eqb c "/" || Ascii.eqb c "?" || Ascii.eqb c "#"
        || Ascii.eqb c "&").

End ReSem.

Section MoreVocabulary.
Context {U : Utils}.
Import TeachableBaseIE.

(** The site and the video id [TeachableIE._real_extract] reads off a
    URL. *)
Definition lecture_url_parts (url : string)
  : option (option string * option string) :=
  option_map
    (fun m => (Py.or_ (Re.group m g_site) (Re.group m g_site_t),
               Re.group m g_id))
    (TeachableIE._match_valid_url url).

(** The form [_login] posts: the hidden inputs of the sign-in page,
    updated with the credentials. *)
Definition login_form (login_page username : string) (password : option string)
  : list (string * option string) :=
  Py.dict_set
    (Py.dict_set
       (map (fun kv => (fst kv, Some (snd kv))) (_hidden_inputs login_page))
       "email" (Some username))
    "password" password.

(** The section titles the chapter loop keeps: all of them, cleaned,
    unless one cleans to nothing. *)
Definition kept_sections (webpage : string) : list string :=
  if forallb (fun t => Py.truthy (cleaned t))
             (Re.findall1 TeachableIE.section_title_pattern 1 webpage)
  then map title_text (Re.findall1 TeachableIE.section_title_pattern 1 webpage)
  else [].

(** The URL of the Hotmart API of a site, and the playback URL built from
    its answer. *)
Definition private_video_api (site : string) : string :=
  "https://" ++ site ++ "/api/v2/hotmart/private_video".

Definition hotmart_url (video_id signature token : string) : string :=
  "https://player.hotmart.com/embed/" ++ video_id ++ "?"
  ++ "signature=" ++ signature ++ "&" ++ "token=" ++ token.

(** The state after the lecture or course page has been asked for. *)
Definition fetched (url : string) (s1 : ie) : ie :=
  mkie (logged_in s1) (DownloadWebpage (page_url url) None [] :: trace s1).
End MoreVocabulary.

(* ===================================================================== *)
(** * The runs of _login *)
(* ===================================================================== *)

#[local] Arguments String.append : simpl never.

Section LoginFacts.
Context {U : Utils} {W : World}.
Import TeachableBaseIE.

Lemma login_runs (site : string) (s : ie) :
  login_run site s (fst (_login site s)) (snd (_login site s)).
Proof.
  unfold _login, bind, get_logged_in, _get_login_info,
    _download_webpage_handle, _download_webpage, set_logged_in, ret, raise.
  fold (netrc_machine site).
  destruct (logged_in s) eqn:Hflag; simpl.
  { destruct s as [f tr]; simpl in *; subst f. now apply run_already. }
  destruct (get_login_info (trace s) (netrc_machine site))
    as [[username|] password] eqn:Hcred; simpl; rewrite ?Hflag.
  2: { now apply run_anonymous with password. }
  destruct (download_webpage_handle
              (GetLoginInfo (netrc_machine site) :: trace s)
              ("https://" ++ site ++ "/sign_in"))
    as [e | [login_page urlh]] eqn:Hpage; simpl; rewrite ?Hflag.
  { eapply run_sign_in_failed; eauto. }
  destruct (is_logged login_page) eqn:Hlogged; simpl; rewrite ?Hflag.
  { eapply run_restored; eauto. }
  set (tr1 := GetLoginInfo (netrc_machine site) :: trace s) in *.
  set (tr2 := sign_in site :: tr1).
  assert (Hposted : forall answer r b,
    download_webpage tr2 (login_post_url login_page urlh)
      (login_post_data login_page username password)
      (login_post_headers urlh) = answer ->
    post_outcome site answer r b ->
    login_run site s r
      (mkie b (login_post login_page urlh username password :: tr2))).
  { intros answer r b Hsent Hout.
    now apply (@run_posted _ _ site s username password tr1 tr2
                 login_page urlh answer r b). }
  match goal with
  | |- context [download_webpage ?t ?u ?d ?h] =>
      destruct (download_webpage t u d h) as [e | response] eqn:Hpost
  end; simpl.
  { apply Hposted with (answer := inl e); [exact Hpost | constructor]. }
  destruct (Py.str_in privacy_policy_prompt response) eqn:Hprivacy; simpl.
  { apply Hposted with (answer := inr response);
      [exact Hpost | now constructor]. }
  destruct (is_logged response) eqn:Hok; simpl.
  { apply Hposted with (answer := inr response);
      [exact Hpost | now constructor]. }
  destruct (get_element_by_class "auth-flash-error" response)
    as [message|] eqn:Hflash; simpl.
  { apply Hposted with (answer := inr response);
      [exact Hpost | now constructor]. }
  apply Hposted with (answer := inr response);
    [exact Hpost | now constructor].
Qed.

Lemma login_result (site : string) (s : ie) (r : exn + unit) (s' : ie) :
  _login site s = (r, s') -> login_run site s r s'.
Proof.
  intros H. pose proof (login_runs site s) as Hrun.
  now rewrite H in Hrun.
Qed.

(** With the flag set, [_login] returns at once and asks for nothing. *)
Lemma login_noop (site : string) (s : ie) :
  logged_in s = true -> _login site s = (inr tt, s).
Proof.
  intros H. unfold _login, bind, get_logged_in. now rewrite H.
Qed.




(** The flag is never taken back. *)
Lemma login_flag_monotone (site : string) (s : ie) (r : exn + unit) (s' : ie) :
  login_run site s r s' -> logged_in s = true -> logged_in s' = true.
Proof.
  intros H Hs; inversion H; subst; simpl; congruence.
Qed.


(** With the flag clear, a call starts with the credential lookup. *)
Lemma login_starts_with_lookup (site : string) (s : ie) :
  logged_in s = false ->
  exists new,
    trace (snd (_login site s))
    = (new ++ GetLoginInfo (netrc_machine site) :: trace s)%list.
Proof.
  intros Hclear. pose proof (login_runs site s) as Hrun.
  remember (fst (_login site s)) as r eqn:Hr.
  remember (snd (_login site s)) as s' eqn:Hs'. clear Hr Hs'.
  inversion Hrun; subst; simpl.
  - congruence.
  - now exists [].
  - now exists [sign_in site].
  - now exists [sign_in site].
  - now exists [login_post login_page urlh username password; sign_in site].
Qed.

Lemma no_proper_suffix (A : Type) (l new : list A) :
  l = (new ++ l)%list -> new = [].
Proof.
  intros H. apply (f_equal (@List.length A)) in H. rewrite length_app in H.
  destruct new; [reflexivity | simpl in H; lia].
Qed.
End LoginFacts.

(* ===================================================================== *)
(** * Properties of the login *)
(* ===================================================================== *)

Section LoginClaims.
Context {U : Utils} {W : World}.
Import TeachableBaseIE.

(** C2, as amended. The login state is the single [_logged_in] flag of
    the extractor instance; it is not kept per site. For any two sites
    [a] and [b]: once [_login a] has set the flag, [_login b] returns at
    once, looks up no credentials, fetches nothing and leaves the state
    as it is; only while the flag is still clear does [_login b] start
    with the credential lookup of site [b]. *)
Theorem login_flag_shared_by_sites (a b : string) (s : ie) :
  (logged_in (snd (_login a s)) = true ->
   _login b (snd (_login a s)) = (inr tt, snd (_login a s)))
  /\ (logged_in (snd (_login a s)) = false ->
      exists new,
        trace (snd (_login b (snd (_login a s))))
        = (new ++ GetLoginInfo (netrc_machine b)
               :: trace (snd (_login a s)))%list).
Proof.
  split; intros Hflag.
  - now apply login_noop.
  - now apply login_starts_with_lookup.
Qed.

(** C4. Whenever [_login] has posted the login form and the answer
    contains the privacy-policy prompt, the call fails with the
    privacy-policy error and leaves the flag clear, whatever else the
    answer shows: no assumption is made on its logged-in markers or on
    its flash error. *)
Theorem privacy_policy_takes_precedence
    (site : string) (s : ie) (r : exn + unit) (s' : ie)
    (url : string) (data : option string) (headers : list (string * string))
    (response : string) :
  _login site s = (r, s') ->
  trace s' = DownloadWebpage url data headers :: sign_in site
             :: GetLoginInfo (netrc_machine site) :: trace s ->
  download_webpage
    (sign_in site :: GetLoginInfo (netrc_machine site) :: trace s)
    url data headers = inr response ->
  Py.str_in privacy_policy_prompt response = true ->
  r = inl (ExtractorError
             ("Unable to login: " ++ site
              ++ " asks you to accept new Privacy Policy. Go to https://"
              ++ site ++ "/ and accept.") true)
  /\ logged_in s' = false.
Proof.
  intros Hlogin Htrace Hanswer Hprompt.
  apply login_result in Hlogin.
  inversion Hlogin; subst; simpl in Htrace.
  - apply (@no_proper_suffix _ (trace s')
             [DownloadWebpage url data headers; sign_in site;
              GetLoginInfo (netrc_machine site)]) in Htrace.
    discriminate.
  - discriminate.
  - discriminate.
  - discriminate.
  - unfold login_post in Htrace. injection Htrace as Hu Hd Hh.
    rewrite Hu, Hd, Hh in *.
    match goal with Hout : post_outcome _ _ _ _ |- _ =>
      rewrite Hanswer in Hout; inversion Hout; subst end;
      try congruence.
    split; reflexivity.
Qed.


(** C10. Starting with the flag clear, a call of [_login]: sets the flag
    only if one of the pages it fetched during the call (the sign-in
    page or the answer to the POST) shows logged-in markers; when the
    credential lookup finds no user name, returns with the lookup as its
    only request and the flag clear, so that the next call, for any
    site, looks credentials up again; and leaves the flag clear
    whenever it raises. *)
Theorem login_flag_only_on_markers
    (site : string) (s : ie) (r : exn + unit) (s' : ie) :
  _login site s = (r, s') ->
  logged_in s = false ->
  (logged_in s' = true ->
   exists page,
     In page (pages_fetched (List.length (trace s') - List.length (trace s))
                            (trace s'))
     /\ is_logged page = true)
  /\ (fst (get_login_info (trace s) (netrc_machine site)) = None ->
      r = inr tt
      /\ s' = mkie false (GetLoginInfo (netrc_machine site) :: trace s)
      /\ forall site2, exists new,
           trace (snd (_login site2 s'))
           = (new ++ GetLoginInfo (netrc_machine site2) :: trace s')%list)
  /\ (forall e, r = inl e -> logged_in s' = false).
Proof.
  intros Hlogin Hclear.
  apply login_result in Hlogin.
  split; [| split].
  - intros Hset.
    inversion Hlogin; subst; cbn [trace logged_in] in *; try congruence.
    + exists login_page. split; [| assumption].
      replace (List.length
                 (sign_in site :: GetLoginInfo (netrc_machine site) :: trace s)
               - List.length (trace s))
        with 2 by (cbn [List.length]; lia).
      cbn [pages_fetched sign_in answer_page].
      match goal with Hp : download_webpage_handle _ _ = _ |- _ =>
        rewrite Hp end.
      now left.
    + match goal with Hout : post_outcome _ _ _ _ |- _ =>
        inversion Hout; subst end; try congruence.
      exists response. split; [| assumption].
      replace (List.length
                 (login_post login_page urlh username password
                  :: sign_in site :: GetLoginInfo (netrc_machine site)
                  :: trace s)
               - List.length (trace s))
        with 3 by (cbn [List.length]; lia).
      cbn [pages_fetched login_post answer_page].
      match goal with Hp : _ = download_webpage _ _ _ _ |- _ =>
        rewrite <- Hp end.
      now left.
  - intros Hnone.
    assert (Hs' : r = inr tt
                  /\ s' = mkie false
                            (GetLoginInfo (netrc_machine site) :: trace s)).
    { inversion Hlogin; subst; simpl in *; try congruence;
        match goal with
        | Hc : get_login_info _ _ = _ |- _ =>
            rewrite Hc in Hnone; simpl in Hnone; try discriminate
        end.
      now split. }
    destruct Hs' as [-> ->]. split; [reflexivity | split; [reflexivity |]].
    intros site2. now apply login_starts_with_lookup.
  - intros e ->. inversion Hlogin; subst; simpl; try reflexivity.
    match goal with Hout : post_outcome _ _ _ _ |- _ =>
      inversion Hout; subst end; reflexivity.
Qed.
End LoginClaims.

(* ===================================================================== *)
(** * Properties of the lecture extractor *)
(* ===================================================================== *)

Section LectureFacts.
Context {U : Utils} {W : World}.
Import TeachableIE.

Lemma forallb_on_map (A B : Type) (f : B -> bool) (g : A -> B) (l : list A) :
  forallb f (map g l) = forallb (fun x => f (g x)) l.
Proof.
  induction l as [| x l IH]; simpl; [reflexivity | now rewrite IH].
Qed.

Lemma collect_sections_spec (titles sections : list string) :
  collect_sections titles sections
  = if forallb (fun s => Py.truthy (cleaned s)) titles
    then (sections ++ map title_text titles)%list
    else [].
Proof.
  revert sections. induction titles as [| s titles IH]; intros sections.
  - simpl. now rewrite app_nil_r.
  - simpl. fold (cleaned s).
    destruct (Py.truthy (cleaned s)) eqn:Hs; simpl; [| reflexivity].
    rewrite IH. fold (title_text s).
    destruct (forallb _ titles); [| reflexivity].
    now rewrite <- app_assoc.
Qed.

Lemma pick_chapter_spec (n : Z) (sections : list string) (s : ie) :
  (1 <= n)%Z ->
  pick_chapter n sections s = (inr (nth_error sections (Z.to_nat (n - 1))), s).
Proof.
  intros Hn. unfold pick_chapter, Py.index.
  destruct (n <=? Z.of_nat (List.length sections))%Z eqn:Hle.
  - apply Z.leb_le in Hle.
    replace (0 <=? n - 1)%Z with true by (symmetry; apply Z.leb_le; lia).
    destruct (nth_error sections (Z.to_nat (n - 1))) as [c |] eqn:Hnth.
    + reflexivity.
    + apply nth_error_None in Hnth. lia.
  - apply Z.leb_gt in Hle.
    replace (nth_error sections (Z.to_nat (n - 1))) with (@None string).
    + reflexivity.
    + symmetry. apply nth_error_None. lia.
Qed.

(** C1, as amended. For every lecture page whose matching list item
    yields a chapter number of at least 1: the section titles are
    collected in document order; if any of them cleans to nothing, all
    titles are discarded and the scan stops, so that no chapter title is
    returned; otherwise the chapter title is the title at the 1-based
    position [chapter_number], when there are that many titles, and none
    when there are fewer. In particular, titles that clean to Welcome,
    the empty string and Advanced give no chapter title for chapter
    number 3. *)
Theorem chapter_resolution
    (webpage video_id : string) (s : ie) (li : string) (n : Z) :
  _search_regex [section_item_pattern video_id] webpage None 1 = Some li ->
  li <> "" ->
  int_or_none (_search_regex [ss_position_pattern] li None 1) = Some n ->
  (1 <= n)%Z ->
  chapter_info webpage video_id s
  = (inr (if forallb (fun t => Py.truthy (cleaned t))
                     (Re.findall1 section_title_pattern 1 webpage)
          then nth_error
                 (map title_text (Re.findall1 section_title_pattern 1 webpage))
                 (Z.to_nat (n - 1))
          else None,
          Some n), s)
  /\ (map cleaned (Re.findall1 section_title_pattern 1 webpage)
      = [Some "Welcome"; Some ""; Some "Advanced"] ->
      n = 3%Z ->
      chapter_info webpage video_id s = (inr (None, Some 3%Z), s)).
Proof.
  intros Hitem Hli Hnum Hn.
  assert (Hrun :
    chapter_info webpage video_id s
    = (inr (if forallb (fun t => Py.truthy (cleaned t))
                       (Re.findall1 section_title_pattern 1 webpage)
            then nth_error
                   (map title_text
                        (Re.findall1 section_title_pattern 1 webpage))
                   (Z.to_nat (n - 1))
            else None,
            Some n), s)).
  { unfold chapter_info. rewrite Hitem.
    apply String.eqb_neq in Hli. rewrite Hli, Hnum.
    unfold bind. cbn [negb]. cbv beta iota.
    rewrite pick_chapter_spec by assumption. unfold ret.
    rewrite collect_sections_spec.
    destruct (forallb _ _); simpl; [reflexivity |].
    destruct (Z.to_nat (n - 1)); reflexivity. }
  split; [exact Hrun |].
  intros Htitles ->. rewrite Hrun.
  replace (forallb (fun t => Py.truthy (cleaned t))
                   (Re.findall1 section_title_pattern 1 webpage))
    with (forallb Py.truthy
            (map cleaned (Re.findall1 section_title_pattern 1 webpage)))
    by apply forallb_on_map.
  now rewrite Htitles.
Qed.

(** C3. For every lecture page without the Hotmart video container:
    [_create_hotmart_url] fails with the login-required error when one
    of the locked-content patterns is found in the page, and with the
    generic extraction error when none is; with a locked-content marker
    in the page it never fails with the extraction error. In both cases
    nothing is requested. *)
Theorem locked_page_requires_login
    (webpage video_id site : string) (s : ie) :
  get_element_html_by_class "hotmart_video_player" webpage = None ->
  (existsb (fun p => Re.found p webpage) locked_patterns = true ->
   _create_hotmart_url webpage video_id site s
   = (inl (LoginRequired "Lecture contents locked"), s)
   /\ forall msg expected,
        fst (_create_hotmart_url webpage video_id site s)
        <> inl (ExtractorError msg expected))
  /\ (existsb (fun p => Re.found p webpage) locked_patterns = false ->
      _create_hotmart_url webpage video_id site s
      = (inl (ExtractorError "Unable to find Hotmart video container" false),
         s)).
Proof.
  intros Habsent. unfold _create_hotmart_url. rewrite Habsent.
  split; intros Hmarker; rewrite Hmarker; unfold bind; simpl.
  - split; [reflexivity | intros msg expected; discriminate].
  - reflexivity.
Qed.
End LectureFacts.

(* ===================================================================== *)
(** * Properties of the course extractor *)
(* ===================================================================== *)

Section CourseFacts.
Context {U : Utils} {W : World}.
Import TeachableBaseIE TeachableCourseIE.

Lemma entries_loop_spec (prefixed : bool) (url_base : string)
    (items : list Re.mobj) (entries : list url_result) :
  entries_loop prefixed url_base items entries
  = (entries
     ++ map (reference prefixed url_base)
            (filter emitted
               (map (fun m => match Re.group m 1 with
                              | Some li => li | None => "" end) items)))%list.
Proof.
  revert entries. induction items as [| m items IH]; intros entries.
  - simpl. now rewrite app_nil_r.
  - cbn [entries_loop map filter].
    set (li := match Re.group m 1 with Some li => li | None => "" end).
    unfold emitted at 1. fold (lacks_markers li). fold (anchor li).
    destruct (lacks_markers li); cbn [negb andb]; [apply IH |].
    destruct (Py.truthy (anchor li)); cbn [negb]; [| apply IH].
    rewrite IH. cbn [map]. rewrite <- app_assoc. reflexivity.
Qed.

(** A run of [_real_extract] that gets to read the course page. *)
Lemma course_extract_run
    (url : string) (s : ie) (site course_id : string) (s1 : ie)
    (webpage : string) :
  course_url_parts url = Some (Some site, Some course_id) ->
  _login site s = (inr tt, s1) ->
  download_webpage (trace s1) (page_url url) None [] = inr webpage ->
  _real_extract url s
  = (inr (mk_playlist_result
            (map (reference (Py.startswith url _URL_PREFIX)
                            ("https://" ++ site ++ "/"))
                 (filter emitted (section_items webpage)))
            (if Py.truthy (Some course_id) then Some course_id else None)
            (if Py.truthy (course_title webpage) then course_title webpage
             else None)),
     mkie (logged_in s1)
          (DownloadWebpage (page_url url) None [] :: trace s1)).
Proof.
  intros Hurl Hlogin Hpage. unfold course_url_parts in Hurl.
  unfold _real_extract.
  destruct (_match_valid_url url) as [m |]; [| discriminate].
  simpl in Hurl. injection Hurl as Hsite Hid. rewrite Hsite, Hid.
  unfold bind. rewrite Hlogin. unfold _download_webpage.
  fold (page_url url). rewrite Hpage. unfold ret.
  rewrite entries_loop_spec. reflexivity.
Qed.

Lemma filter_split (A : Type) (p : A -> bool) (l : list A) :
  List.length (filter p l) + List.length (filter (fun x => negb (p x)) l)
  = List.length l.
Proof.
  induction l as [| x l IH]; simpl; [reflexivity |].
  destruct (p x); simpl; lia.
Qed.

Lemma filter_all (A : Type) (p q : A -> bool) (l : list A) :
  (forall x, In x l -> p x = q x) -> filter p l = filter q l.
Proof.
  induction l as [| x l IH]; intros H; simpl; [reflexivity |].
  rewrite (H x) by now left.
  rewrite IH by (intros y Hy; apply H; now right). reflexivity.
Qed.

Lemma filter_length_weaker (A : Type) (p q : A -> bool) (l : list A) :
  (forall x, p x = true -> q x = true) ->
  List.length (filter p l) <= List.length (filter q l).
Proof.
  intros H. induction l as [| x l IH]; simpl; [lia |].
  destruct (p x) eqn:Hp.
  - rewrite (H x Hp). simpl. lia.
  - destruct (q x); simpl; lia.
Qed.
End CourseFacts.

Section CourseClaims.
Context {U : Utils} {W : World}.
Import TeachableBaseIE TeachableCourseIE.

(** C7, as amended. For every course page the extractor reads, it skips
    the section items that contain neither the play-icon marker nor a
    duration (one or two digits, a colon, two digits), and also the
    items in which no anchor href is found; it emits the references of
    the remaining items in document order. When every item that has a
    marker also has an anchor, the skipped items are exactly those that
    lack both markers; a page with 5 section items of which 2 lack both
    markers then yields exactly 3 references. *)
Theorem course_playlist_entries
    (url : string) (s : ie) (site course_id : string) (s1 : ie)
    (webpage : string) :
  course_url_parts url = Some (Some site, Some course_id) ->
  _login site s = (inr tt, s1) ->
  download_webpage (trace s1) (page_url url) None [] = inr webpage ->
  exists pl s2,
    _real_extract url s = (inr pl, s2)
    /\ pl_entries pl
       = map (reference (Py.startswith url _URL_PREFIX)
                        ("https://" ++ site ++ "/"))
             (filter (fun li => negb (lacks_markers li)
                                && Py.truthy (anchor li))
                     (section_items webpage))
    /\ ((forall li, In li (section_items webpage) ->
                    lacks_markers li = false -> Py.truthy (anchor li) = true) ->
        pl_entries pl
        = map (reference (Py.startswith url _URL_PREFIX)
                         ("https://" ++ site ++ "/"))
              (filter (fun li => negb (lacks_markers li))
                      (section_items webpage))
        /\ (List.length (section_items webpage) = 5 ->
            List.length (filter lacks_markers (section_items webpage)) = 2 ->
            List.length (pl_entries pl) = 3)).
Proof.
  intros Hurl Hlogin Hpage.
  eexists. eexists.
  split; [apply (course_extract_run url s Hurl Hlogin Hpage) |].
  cbn [pl_entries]. split; [reflexivity |].
  intros Hanchors.
  assert (Hsame :
    filter emitted (section_items webpage)
    = filter (fun li => negb (lacks_markers li)) (section_items webpage)).
  { apply filter_all. intros li Hin. unfold emitted.
    destruct (lacks_markers li) eqn:Hl; [reflexivity |].
    now rewrite (Hanchors li Hin Hl). }
  rewrite Hsame. split; [reflexivity |].
  intros Hfive Htwo. rewrite length_map.
  pose proof (filter_split lacks_markers (section_items webpage)) as Hsplit.
  lia.
Qed.

(** C8, as amended. For every course URL the extractor reads the page
    of, there is one reference for each section item that has a marker
    and an anchor, in document order. When the course URL carries the
    escape prefix, the URL of each reference is the prefix followed by
    the anchor of its item resolved (by urljoin) against the base URL
    https://site/ of the site, so every reference carries the prefix.
    When the course URL is not prefixed, the extractor puts nothing in
    front: the URL of each reference is the resolved anchor itself (it
    then starts with the prefix only if the resolved anchor does). *)
Theorem escape_prefix_round_trip
    (url : string) (s : ie) (site course_id : string) (s1 : ie)
    (webpage : string) :
  course_url_parts url = Some (Some site, Some course_id) ->
  _login site s = (inr tt, s1) ->
  download_webpage (trace s1) (page_url url) None [] = inr webpage ->
  exists pl s2,
    _real_extract url s = (inr pl, s2)
    /\ (Py.startswith url _URL_PREFIX = true ->
        map ur_url (pl_entries pl)
        = map (fun li => _URL_PREFIX
                         ++ urljoin ("https://" ++ site ++ "/") (lecture_href li))
              (filter emitted (section_items webpage))
        /\ forall e, In e (pl_entries pl) ->
                     Py.startswith (ur_url e) _URL_PREFIX = true)
    /\ (Py.startswith url _URL_PREFIX = false ->
        map ur_url (pl_entries pl)
        = map (fun li => urljoin ("https://" ++ site ++ "/") (lecture_href li))
              (filter emitted (section_items webpage))).
Proof.
  intros Hurl Hlogin Hpage.
  eexists. eexists.
  split; [apply (course_extract_run url s Hurl Hlogin Hpage) |].
  cbn [pl_entries].
  split; intros Hprefixed; rewrite Hprefixed; rewrite map_map.
  - split; [reflexivity |].
    intros e He. apply in_map_iff in He. destruct He as (li & <- & _).
    unfold reference. cbn [ur_url]. unfold Py.startswith.
    generalize (urljoin ("https://" ++ site ++ "/")
                        match anchor li with Some u => u | None => "" end).
    intros u. unfold _URL_PREFIX.
    induction "teachable:" as [| c p IH]; simpl; [now destruct u |].
    destruct (ascii_dec c c) as [_ | Hc]; [exact IH | now elim Hc].
  - reflexivity.
Qed.

(** C9. A section item that has a marker but in which no anchor href is
    found is skipped without a trace: the references produced are those
    of the page without that item, so there are fewer of them than
    there are items with a marker. *)
Theorem item_without_anchor_is_skipped
    (url : string) (s : ie) (site course_id : string) (s1 : ie)
    (webpage : string) (before : list string) (li : string)
    (after : list string) :
  course_url_parts url = Some (Some site, Some course_id) ->
  _login site s = (inr tt, s1) ->
  download_webpage (trace s1) (page_url url) None [] = inr webpage ->
  section_items webpage = (before ++ li :: after)%list ->
  lacks_markers li = false ->
  anchor li = None ->
  exists pl s2,
    _real_extract url s = (inr pl, s2)
    /\ pl_entries pl
       = map (reference (Py.startswith url _URL_PREFIX)
                        ("https://" ++ site ++ "/"))
             (filter emitted (before ++ after))
    /\ List.length (pl_entries pl)
       < List.length (filter (fun li => negb (lacks_markers li))
                             (section_items webpage)).
Proof.
  intros Hurl Hlogin Hpage Hitems Hmarked Hanchor.
  eexists. eexists.
  split; [apply (course_extract_run url s Hurl Hlogin Hpage) |].
  cbn [pl_entries]. rewrite Hitems.
  assert (Hskip : emitted li = false).
  { unfold emitted. now rewrite Hanchor, andb_false_r. }
  rewrite !filter_app. cbn [filter]. rewrite Hskip, Hmarked. cbn [negb].
  split; [reflexivity |].
  rewrite length_map, !length_app. cbn [List.length].
  assert (Hle : forall l,
    List.length (filter emitted l)
    <= List.length (filter (fun li => negb (lacks_markers li)) l)).
  { intros l. apply filter_length_weaker. intros x Hx.
    unfold emitted in Hx. now apply andb_prop in Hx. }
  pose proof (Hle before). pose proof (Hle after). lia.
Qed.
End CourseClaims.

(** C5. The two extractors never both accept a URL: [TeachableCourseIE]
    declines every URL that [TeachableIE] accepts, that is every URL of
    the lecture shape, and a URL it accepts is not accepted by
    [TeachableIE]. *)
Theorem lecture_and_course_exclusive (url : string) :
  (TeachableIE.suitable url = true -> TeachableCourseIE.suitable url = false)
  /\ (TeachableCourseIE.suitable url = true -> TeachableIE.suitable url = false)
  /\ TeachableIE.suitable url && TeachableCourseIE.suitable url = false.
Proof.
  unfold TeachableCourseIE.suitable.
  destruct (TeachableIE.suitable url); repeat split; intros; try discriminate;
    reflexivity.
Qed.

(* ===================================================================== *)
(** * The properties at work on the scenarios *)
(* ===================================================================== *)

Section Runs.
Import TeachableBaseIE.
Import Scenario.

(** C2, the claim as stated fails: on one extractor instance, after the
    login to gns3.teachable.com has succeeded, the login to
    stackskills.com returns at once; the credentials of stackskills are
    never looked up and its sign-in page is never fetched, although a
    fresh instance would do both. *)
Lemma login_per_site_counterexample :
  logged_in (snd (@_login Fixture.utils accepting gns3 fresh)) = true
  /\ @_login Fixture.utils accepting stackskills
       (snd (@_login Fixture.utils accepting gns3 fresh))
     = (inr tt, snd (@_login Fixture.utils accepting gns3 fresh))
  /\ ~ In (GetLoginInfo "stackskills")
          (trace (snd (@_login Fixture.utils accepting gns3 fresh)))
  /\ ~ In (DownloadWebpageHandle "https://stackskills.com/sign_in")
          (trace (snd (@_login Fixture.utils accepting gns3 fresh)))
  /\ trace (snd (@_login Fixture.utils accepting stackskills fresh))
     = [DownloadWebpage "https://stackskills.com/sign_in"
          (Some "authenticity_token=tok&email=ada&password=s3cret")
          [("Content-Type", "application/x-www-form-urlencoded");
           ("Referer", "https://stackskills.com/sign_in")];
        DownloadWebpageHandle "https://stackskills.com/sign_in";
        GetLoginInfo "stackskills"].
Proof.
  repeat split; try (vm_compute; reflexivity);
    vm_compute; intros H; repeat (destruct H as [H | H]; try discriminate);
    exact H.
Qed.

Lemma login_flag_shared_by_sites_witness :
  @_login Fixture.utils accepting stackskills
    (snd (@_login Fixture.utils accepting gns3 fresh))
  = (inr tt, snd (@_login Fixture.utils accepting gns3 fresh))
  /\ exists new,
       trace (snd (@_login Fixture.utils anonymous stackskills
                     (snd (@_login Fixture.utils anonymous gns3 fresh))))
       = (new ++ GetLoginInfo "stackskills"
              :: trace (snd (@_login Fixture.utils anonymous gns3 fresh)))%list.
Proof.
  split.
  - apply (proj1 (@login_flag_shared_by_sites Fixture.utils accepting
                    gns3 stackskills fresh)).
    vm_compute. reflexivity.
  - apply (proj2 (@login_flag_shared_by_sites Fixture.utils anonymous
                    gns3 stackskills fresh)).
    vm_compute. reflexivity.
Defined.

Lemma privacy_policy_takes_precedence_witness :
  (fst (@_login Fixture.utils pending_policy gns3 fresh)
   = inl (ExtractorError
            ("Unable to login: gns3.teachable.com asks you to accept new "
             ++ "Privacy Policy. Go to https://gns3.teachable.com/ and accept.")
            true)
   /\ logged_in (snd (@_login Fixture.utils pending_policy gns3 fresh)) = false)
  /\ @is_logged privacy_page = true.
Proof.
  split; [| vm_compute; reflexivity].
  apply (@privacy_policy_takes_precedence Fixture.utils pending_policy
           gns3 fresh _ _
           "https://gns3.teachable.com/sign_in"
           (Some "authenticity_token=tok&email=ada&password=s3cret")
           [("Content-Type", "application/x-www-form-urlencoded");
            ("Referer", "https://gns3.teachable.com/sign_in")]
           privacy_page).
  - apply surjective_pairing.
  - vm_compute. reflexivity.
  - vm_compute. reflexivity.
  - vm_compute. reflexivity.
Defined.


(** The flag belongs to the instance: a second extractor instance of
    the same process starts with its own flag clear, whatever the first
    one did, and goes through the handshake itself. Here the first
    instance logs in; the second one, run after it, fetches the sign-in
    page and posts the form again. *)
Example login_flag_is_per_instance :
  logged_in (snd (@_login Fixture.utils accepting gns3 fresh)) = true
  /\ sign_ins
       (trace (snd (@_login Fixture.utils accepting gns3
                      (mkie false
                         (trace (snd (@_login Fixture.utils accepting gns3
                                        fresh))))))) = 2
  /\ posts
       (trace (snd (@_login Fixture.utils accepting gns3
                      (mkie false
                         (trace (snd (@_login Fixture.utils accepting gns3
                                        fresh))))))) = 2.
Proof. repeat split; vm_compute; reflexivity. Qed.


Lemma login_flag_only_on_markers_witness :
  (exists page,
      In page
         (@pages_fetched accepting
            (List.length (trace (snd (@_login Fixture.utils accepting gns3 fresh)))
             - List.length (trace fresh))
            (trace (snd (@_login Fixture.utils accepting gns3 fresh))))
      /\ @is_logged page = true)
  /\ @_login Fixture.utils anonymous gns3 fresh
     = (inr tt, mkie false [GetLoginInfo "gns3"])
  /\ logged_in (snd (@_login Fixture.utils rejecting gns3 fresh)) = false.
Proof.
  split; [| split].
  - apply (proj1 (@login_flag_only_on_markers Fixture.utils accepting gns3
                    fresh _ _ (surjective_pairing _) eq_refl)).
    vm_compute. reflexivity.
  - destruct (proj1 (proj2 (@login_flag_only_on_markers Fixture.utils
                              anonymous gns3 fresh _ _
                              (surjective_pairing _) eq_refl)))
      as (Hr & Hs & _).
    + vm_compute. reflexivity.
    + rewrite (surjective_pairing (@_login Fixture.utils anonymous gns3 fresh)).
      rewrite Hr, Hs. reflexivity.
  - apply (proj2 (proj2 (@login_flag_only_on_markers Fixture.utils rejecting
                           gns3 fresh _ _ (surjective_pairing _) eq_refl))
             (ExtractorError "Unable to login: Invalid email or password." true)).
    vm_compute. reflexivity.
Defined.

(** C1, the claim as stated fails: for the titles Welcome, an empty one
    and Advanced with chapter number 1, the reference definition of the
    specification restarts after the empty title and answers Advanced,
    while the extractor stops at the empty title and returns no chapter
    title. *)
Lemma chapter_restart_counterexample :
  Re.findall1 TeachableIE.section_title_pattern 1
    (lecture_page "1" ["Welcome"; " "; "Advanced"])
  = ["Welcome"; " "; "Advanced"]
  /\ @TeachableIE.chapter_info Fixture.utils
       (lecture_page "1" ["Welcome"; " "; "Advanced"]) "6842364" fresh
     = (inr (None, Some 1%Z), fresh)
  /\ @spec_chapter_title Fixture.utils ["Welcome"; " "; "Advanced"] 1
     = Some "Advanced".
Proof. repeat split; vm_compute; reflexivity. Qed.

Lemma chapter_resolution_witness :
  @TeachableIE.chapter_info Fixture.utils
    (lecture_page "2" ["Welcome"; "Setup"]) "6842364" fresh
  = (inr (Some "Setup", Some 2%Z), fresh)
  /\ @TeachableIE.chapter_info Fixture.utils
       (lecture_page "3" ["Welcome"; " "; "Advanced"]) "6842364" fresh
     = (inr (None, Some 3%Z), fresh).
Proof.
  split.
  - apply (proj1 (@chapter_resolution Fixture.utils
                    (lecture_page "2" ["Welcome"; "Setup"]) "6842364" fresh
                    ("<li class='section-item' data-lecture-id='6842364' "
                     ++ "data-ss-position='2'>Overview</li>") 2%Z
                    ltac:(vm_compute; reflexivity) ltac:(discriminate)
                    ltac:(vm_compute; reflexivity) ltac:(lia))).
  - apply (proj2 (@chapter_resolution Fixture.utils
                    (lecture_page "3" ["Welcome"; " "; "Advanced"])
                    "6842364" fresh
                    ("<li class='section-item' data-lecture-id='6842364' "
                     ++ "data-ss-position='3'>Overview</li>") 3%Z
                    ltac:(vm_compute; reflexivity) ltac:(discriminate)
                    ltac:(vm_compute; reflexivity) ltac:(lia))).
    + vm_compute. reflexivity.
    + reflexivity.
Defined.

Lemma locked_page_requires_login_witness :
  @TeachableIE._create_hotmart_url Fixture.utils anonymous
    locked_page "6842364" gns3 fresh
  = (inl (LoginRequired "Lecture contents locked"), fresh)
  /\ @TeachableIE._create_hotmart_url Fixture.utils anonymous
       empty_page "6842364" gns3 fresh
     = (inl (ExtractorError "Unable to find Hotmart video container" false),
        fresh).
Proof.
  split.
  - apply (proj1 (@locked_page_requires_login Fixture.utils anonymous
                    locked_page "6842364" gns3 fresh
                    ltac:(vm_compute; reflexivity))).
    vm_compute. reflexivity.
  - apply (proj2 (@locked_page_requires_login Fixture.utils anonymous
                    empty_page "6842364" gns3 fresh
                    ltac:(vm_compute; reflexivity))).
    vm_compute. reflexivity.
Defined.

Lemma lecture_and_course_exclusive_witness :
  (TeachableIE.suitable lecture_url = true
   /\ TeachableCourseIE.super_suitable lecture_url = true
   /\ TeachableCourseIE.suitable lecture_url = false)
  /\ (TeachableCourseIE.suitable course_url = true
      /\ TeachableIE.suitable course_url = false).
Proof.
  split; [split; [| split] | split].
  - vm_compute. reflexivity.
  - vm_compute. reflexivity.
  - apply (proj1 (lecture_and_course_exclusive lecture_url)).
    vm_compute. reflexivity.
  - vm_compute. reflexivity.
  - apply (proj1 (proj2 (lecture_and_course_exclusive course_url))).
    vm_compute. reflexivity.
Defined.

(** C7, the claim as stated fails: of the five section items of this
    page two lack both markers, but the page yields two references, not
    three: the third item has a play icon and no link, and is skipped as
    well. *)
Lemma course_playlist_counterexample :
  List.length (section_items (course_page unlinked)) = 5
  /\ List.length (filter lacks_markers (section_items (course_page unlinked)))
     = 2
  /\ option_map (fun pl => map ur_video_id (pl_entries pl))
       (match fst (@TeachableCourseIE._real_extract Fixture.utils
                     (course_world unlinked) course_url fresh) with
        | inr pl => Some pl
        | inl _ => None
        end)
     = Some [Some "101"; Some "105"].
Proof. repeat split; vm_compute; reflexivity. Qed.

Lemma course_playlist_entries_witness :
  exists pl s2,
    @TeachableCourseIE._real_extract Fixture.utils (course_world linked)
      course_url fresh = (inr pl, s2)
    /\ List.length (pl_entries pl) = 3.
Proof.
  destruct (@course_playlist_entries Fixture.utils (course_world linked)
              course_url fresh gns3 "423415"
              (mkie false [GetLoginInfo "gns3"]) (course_page linked)
              ltac:(vm_compute; reflexivity) ltac:(vm_compute; reflexivity)
              ltac:(vm_compute; reflexivity))
    as (pl & s2 & Hrun & _ & Hall).
  exists pl, s2. split; [exact Hrun |].
  apply Hall.
  - intros li Hin Hmarked. vm_compute in Hin.
    repeat (destruct Hin as [<- | Hin];
            [first [vm_compute; reflexivity
                   | vm_compute in Hmarked; discriminate] |]).
    destruct Hin.
  - vm_compute. reflexivity.
  - vm_compute. reflexivity.
Defined.

Lemma escape_prefix_round_trip_witness :
  (exists pl s2,
      @TeachableCourseIE._real_extract Fixture.utils (course_world linked)
        prefixed_course_url fresh = (inr pl, s2)
      /\ map ur_url (pl_entries pl)
         = ["teachable:https://learn.vrdev.school/courses/gns3/lectures/101";
            "teachable:https://learn.vrdev.school/courses/gns3/lectures/103";
            "teachable:https://learn.vrdev.school/courses/gns3/lectures/105"])
  /\ (exists pl s2,
         @TeachableCourseIE._real_extract Fixture.utils (course_world linked)
           course_url fresh = (inr pl, s2)
         /\ map ur_url (pl_entries pl)
            = ["https://gns3.teachable.com/courses/gns3/lectures/101";
               "https://gns3.teachable.com/courses/gns3/lectures/103";
               "https://gns3.teachable.com/courses/gns3/lectures/105"]).
Proof.
  split.
  - destruct (@escape_prefix_round_trip Fixture.utils (course_world linked)
                prefixed_course_url fresh "learn.vrdev.school"
                "gear-vr-developer-mini"
                (mkie false [GetLoginInfo "learn.vrdev.school"])
                (course_page linked)
                ltac:(vm_compute; reflexivity) ltac:(vm_compute; reflexivity)
                ltac:(vm_compute; reflexivity))
      as (pl & s2 & Hrun & Hprefixed & _).
    exists pl, s2. split; [exact Hrun |].
    destruct (Hprefixed ltac:(vm_compute; reflexivity)) as [-> _].
    vm_compute. reflexivity.
  - destruct (@escape_prefix_round_trip Fixture.utils (course_world linked)
                course_url fresh gns3 "423415"
                (mkie false [GetLoginInfo "gns3"]) (course_page linked)
                ltac:(vm_compute; reflexivity) ltac:(vm_compute; reflexivity)
                ltac:(vm_compute; reflexivity))
      as (pl & s2 & Hrun & _ & Hplain).
    exists pl, s2. split; [exact Hrun |].
    rewrite (Hplain ltac:(vm_compute; reflexivity)).
    vm_compute. reflexivity.
Defined.

(** C8 as it was stated does not hold: a course URL without the escape
    prefix can give a reference that carries it. The third item of this
    course page links to a URL that starts with the prefix; urljoin
    leaves a URL with a scheme of its own as it is, so the reference
    built from the unprefixed course URL starts with the prefix, and the
    lecture extractor accepts it. *)
Lemma unprefixed_course_counterexample :
  Py.startswith course_url TeachableBaseIE._URL_PREFIX = false
  /\ option_map (fun pl => map ur_url (pl_entries pl))
       (match fst (@TeachableCourseIE._real_extract Fixture.utils
                     (course_world foreign) course_url fresh) with
        | inr pl => Some pl
        | inl _ => None
        end)
     = Some ["https://gns3.teachable.com/courses/gns3/lectures/101";
             foreign_url;
             "https://gns3.teachable.com/courses/gns3/lectures/105"]
  /\ Py.startswith foreign_url TeachableBaseIE._URL_PREFIX = true
  /\ TeachableIE.suitable foreign_url = true.
Proof. repeat split; vm_compute; reflexivity. Qed.

Lemma item_without_anchor_is_skipped_witness :
  exists pl s2,
    @TeachableCourseIE._real_extract Fixture.utils (course_world unlinked)
      course_url fresh = (inr pl, s2)
    /\ pl_entries pl
       = map (@reference Fixture.utils
                (Py.startswith course_url _URL_PREFIX)
                ("https://" ++ gns3 ++ "/"))
             (filter (@emitted)
                (firstn 2 (section_items (course_page unlinked))
                 ++ skipn 3 (section_items (course_page unlinked))))
    /\ List.length (pl_entries pl)
       < List.length (filter (fun li => negb (lacks_markers li))
                             (section_items (course_page unlinked))).
Proof.
  apply (@item_without_anchor_is_skipped Fixture.utils (course_world unlinked)
           course_url fresh gns3 "423415"
           (mkie false [GetLoginInfo "gns3"]) (course_page unlinked)
           (firstn 2 (section_items (course_page unlinked)))
           (item unlinked)
           (skipn 3 (section_items (course_page unlinked)))).
  all: vm_compute; reflexivity.
Defined.

(** The lecture of the first test of [TeachableIE._TESTS], on a page
    with two section titles: title Overview, chapter Welcome, chapter
    number 1. *)
Example lecture_extraction :
  fst (@TeachableIE._real_extract Fixture.utils
         (lecture_world "1" ["Welcome"; "Setup"]) lecture_url fresh)
  = inr (mk_url_result
           "https://player.hotmart.com/embed/vid?signature=sig&token=key"
           "Generic" true (Some "6842364") (Some "Overview")
           (Some "Welcome") (Some 1%Z)).
Proof. vm_compute. reflexivity. Qed.

(** Chapter number 0 passes the test [chapter_number <= len(sections)]
    and reads [sections[-1]]: the last title, or an IndexError when
    there is no title. *)
Example chapter_number_zero :
  fst (@TeachableIE.chapter_info Fixture.utils
         (lecture_page "0" ["Welcome"; "Setup"]) "6842364" fresh)
  = inr (Some "Setup", Some 0%Z)
  /\ fst (@TeachableIE.chapter_info Fixture.utils
            (lecture_page "0" []) "6842364" fresh)
     = inl IndexError.
Proof. split; vm_compute; reflexivity. Qed.

(** The URLs of the [_TESTS] of both extractors are accepted by the
    extractor they belong to. *)
Example tests_only_matching :
  forallb TeachableIE.suitable
    [ "https://gns3.teachable.com/courses/gns3-certified-associate/lectures/6842364";
      "http://v1.upskillcourses.com/courses/119763/lectures/1747100";
      "https://gns3.teachable.com/courses/423415/lectures/6885939";
      "teachable:https://v1.upskillcourses.com/courses/essential-web-developer-course/lectures/1747100" ]
  = true
  /\ forallb TeachableCourseIE.suitable
       [ "http://v1.upskillcourses.com/courses/essential-web-developer-course/";
         "http://v1.upskillcourses.com/courses/119763/";
         "http://v1.upskillcourses.com/courses/enrolled/119763";
         "https://gns3.teachable.com/courses/enrolled/423415";
         "teachable:https://learn.vrdev.school/p/gear-vr-developer-mini";
         "teachable:https://filmsimplified.com/p/davinci-resolve-15-crash-course" ]
     = true.
Proof. split; vm_compute; reflexivity. Qed.
End Runs.

(* ===================================================================== *)
(** * What the patterns read *)
(* ===================================================================== *)

Import Re ReSem TeachableBaseIE.

#[local] Arguments String.append : simpl nomatch.

Lemma run_rep (R : Type) greedy lo hi r (p : pos) (k : pos -> option R) :
  run (Rep greedy lo hi r) p k
  = rep_loop (fun p k => run r p k) greedy lo hi k (S (lo + remaining p)) 0 p.
Proof. reflexivity. Qed.

Lemma rep_loop_sound (R : Type) (one : pos -> pos -> Prop)
    (run_r : pos -> (pos -> option R) -> option R) greedy lo hi k :
  (forall p k' x, run_r p k' = Some x -> exists p', one p p' /\ k' p' = Some x) ->
  forall fuel count p x,
    rep_loop run_r greedy lo hi k fuel count p = Some x ->
    exists p', iter one lo hi count p p' /\ k p' = Some x.
Proof.
  intros Hone. induction fuel as [| fuel IH]; intros count p x H.
  - discriminate.
  - cbn [rep_loop] in H.
    assert (Hagain :
      (if below count hi then
         run_r p (fun p' =>
           if (lo <=? count) && (remaining p <=? remaining p') then None
           else rep_loop run_r greedy lo hi k fuel (S count) p')
       else None) = Some x ->
      exists p', iter one lo hi count p p' /\ k p' = Some x).
    { destruct (below count hi) eqn:Hb; [| discriminate].
      intros Hr. apply Hone in Hr. destruct Hr as (p1 & H1 & Hk).
      destruct ((lo <=? count) && (remaining p <=? remaining p1));
        [discriminate |].
      apply IH in Hk. destruct Hk as (p2 & Hit & Hk).
      exists p2. split; [| exact Hk]. now apply iter_more with p1. }
    assert (Hstop :
      (if lo <=? count then k p else None) = Some x ->
      exists p', iter one lo hi count p p' /\ k p' = Some x).
    { destruct (lo <=? count) eqn:Hl; [| discriminate].
      intros Hk. exists p. split; [| exact Hk].
      apply iter_stop. now apply Nat.leb_le. }
    destruct greedy.
    + destruct (if below count hi then _ else None) eqn:Ha.
      * injection H as <-. now apply Hagain.
      * now apply Hstop.
    + destruct (if lo <=? count then k p else None) eqn:Hs.
      * injection H as <-. now apply Hstop.
      * now apply Hagain.
Qed.

Lemma run_sound (r : regex) :
  forall (R : Type) (p : pos) (k : pos -> option R) (x : R),
    run r p k = Some x -> exists p', matches r p p' /\ k p' = Some x.
Proof.
  induction r as [| s | neg items | dotall | r1 IH1 r2 IH2 | r1 IH1 r2 IH2
                  | greedy lo hi r IH | n r IH | n | r IH |];
    intros R p k x H.
  - exists p. split; [constructor | exact H].
  - cbn [run] in H. destruct (eat s p) as [p' |] eqn:He; [| discriminate].
    exists p'. split; [now constructor | exact H].
  - cbn [run] in H. destruct (step p) as [[c p'] |] eqn:Hs; [| discriminate].
    destruct (xorb neg (existsb (in_item c) items)) eqn:Hc; [| discriminate].
    exists p'. split; [now apply m_cls with c | exact H].
  - cbn [run] in H. destruct (step p) as [[c p'] |] eqn:Hs; [| discriminate].
    destruct (dotall || negb (Ascii.eqb c "010"%char)) eqn:Hc; [| discriminate].
    exists p'. split; [now apply m_dot with c | exact H].
  - cbn [run] in H. apply IH1 in H. destruct H as (p1 & H1 & H).
    apply IH2 in H. destruct H as (p2 & H2 & H).
    exists p2. split; [now apply m_seq with p1 | exact H].
  - cbn [run] in H. destruct (run r1 p k) as [y |] eqn:H1.
    + injection H as <-. apply IH1 in H1. destruct H1 as (p' & H1 & Hk).
      exists p'. split; [now apply m_alt_l | exact Hk].
    + apply IH2 in H. destruct H as (p' & H2 & Hk).
      exists p'. split; [now apply m_alt_r | exact Hk].
  - rewrite run_rep in H.
    apply (@rep_loop_sound R (matches r)) in H.
    + destruct H as (p' & Hit & Hk). exists p'. split; [now constructor | exact Hk].
    + intros p0 k' y Hy. now apply IH.
  - cbn [run] in H. apply IH in H. destruct H as (p' & Hm & Hk).
    exists (bind_group n p p'). split; [now constructor | exact Hk].
  - cbn [run] in H. destruct (group_of (caps p) n) as [s |] eqn:Hg; [| discriminate].
    destruct (eat s p) as [p' |] eqn:He; [| discriminate].
    exists p'. split; [now apply m_backref with s | exact H].
  - cbn [run] in H. destruct (run r p (fun _ => Some tt)) eqn:Hn; [discriminate |].
    exists p. split; [now constructor | exact H].
  - cbn [run] in H. destruct (at_boundary p) eqn:Hb; [| discriminate].
    exists p. split; [now constructor | exact H].
Qed.

Lemma append_assoc (a b c : string) : (a ++ b) ++ c = a ++ b ++ c.
Proof. induction a as [| x a IH]; simpl; [reflexivity | now rewrite IH]. Qed.

Lemma append_nil_r (a : string) : a ++ "" = a.
Proof. induction a as [| x a IH]; simpl; [reflexivity | now rewrite IH]. Qed.

Lemma length_append (a b : string) :
  String.length (a ++ b) = String.length a + String.length b.
Proof. induction a as [| x a IH]; simpl; [reflexivity | now rewrite IH]. Qed.

Lemma take_append (a b : string) : Py.take (String.length a) (a ++ b) = a.
Proof. induction a as [| x a IH]; simpl; [now destruct b | now rewrite IH]. Qed.

Lemma drop_append (a b : string) : Py.drop (String.length a) (a ++ b) = b.
Proof. induction a as [| x a IH]; simpl; [reflexivity | exact IH]. Qed.

Lemma prefix_append (a b : string) : String.prefix a (a ++ b) = true.
Proof.
  induction a as [| x a IH]; simpl; [now destruct b |].
  destruct (ascii_dec x x) as [_ | Hx]; [exact IH | now elim Hx].
Qed.

Lemma all_chars_append (f : ascii -> bool) (a b : string) :
  all_chars f (a ++ b) = all_chars f a && all_chars f b.
Proof.
  induction a as [| x a IH]; simpl; [reflexivity |].
  now rewrite IH, andb_assoc.
Qed.

Lemma consumed_reads (p p' : pos) (t : string) :
  rest p = t ++ rest p' -> consumed p p' = t.
Proof.
  intros H. unfold consumed, remaining. rewrite H, length_append.
  replace (String.length t + String.length (rest p') - String.length (rest p'))
    with (String.length t) by lia.
  apply take_append.
Qed.

Lemma step_spec (p : pos) (c : ascii) (p' : pos) :
  step p = Some (c, p') ->
  rest p = String c (rest p') /\ caps p' = caps p /\ prev p' = Some c.
Proof.
  unfold step. destruct (rest p) as [| c0 s] eqn:Hr; [discriminate |].
  intros H. injection H as <- <-. now repeat split.
Qed.

Lemma eat_spec (lit : string) :
  forall p p', eat lit p = Some p' ->
               rest p = lit ++ rest p' /\ caps p' = caps p.
Proof.
  induction lit as [| c lit IH]; intros p p' H; simpl in H.
  - injection H as <-. now split.
  - destruct (step p) as [[c' p1] |] eqn:Hs; [| discriminate].
    destruct (Ascii.eqb c c') eqn:Hc; [| discriminate].
    apply Ascii.eqb_eq in Hc. subst c'.
    apply step_spec in Hs. destruct Hs as (Hr & Hcaps & _).
    apply IH in H. destruct H as (Hr1 & Hcaps1).
    split; [| congruence]. rewrite Hr, Hr1. reflexivity.
Qed.

(** What a match reads is a prefix of what was left to read. *)
Lemma iter_reads (one : pos -> pos -> Prop) lo hi :
  (forall p p', one p p' -> exists t, rest p = t ++ rest p') ->
  forall count p p', iter one lo hi count p p' ->
                     exists t, rest p = t ++ rest p'.
Proof.
  intros Hone count p p' H. induction H as [count p Hlo | count p p1 p2 Hb H1 _ IH].
  - now exists "".
  - apply Hone in H1. destruct H1 as (t1 & H1). destruct IH as (t2 & H2).
    exists (t1 ++ t2). rewrite H1, H2. now rewrite append_assoc.
Qed.

Ltac use_step :=
  match goal with
  | H : step _ = Some _ |- _ =>
      apply step_spec in H; destruct H as (? & ? & ?)
  end.

Ltac use_eat :=
  match goal with
  | H : eat _ _ = Some _ |- _ => apply eat_spec in H; destruct H as (? & ?)
  end.

Lemma matches_reads (r : regex) :
  forall p p', matches r p p' -> exists t, rest p = t ++ rest p'.
Proof.
  induction r as [| s | neg items | dotall | r1 IH1 r2 IH2 | r1 IH1 r2 IH2
                  | greedy lo hi r IH | n r IH | n | r IH |];
    intros p p' H; inversion H; subst.
  - now exists "".
  - use_eat. now exists s.
  - use_step. now exists (String c "").
  - use_step. now exists (String c "").
  - match goal with
    | H1 : matches r1 _ _, H2 : matches r2 _ _ |- _ =>
        apply IH1 in H1; apply IH2 in H2;
        destruct H1 as (t1 & H1); destruct H2 as (t2 & H2);
        exists (t1 ++ t2); rewrite H1, H2; now rewrite append_assoc
    end.
  - now apply IH1.
  - now apply IH2.
  - match goal with
    | H1 : iter _ _ _ _ _ _ |- _ => now apply (iter_reads IH) in H1
    end.
  - match goal with H1 : matches r _ _ |- _ => now apply IH in H1 end.
  - use_eat. now exists s.
  - now exists "".
  - now exists "".
Qed.

Lemma iter_caps (one : pos -> pos -> Prop) lo hi :
  (forall p p', one p p' -> caps p' = caps p) ->
  forall count p p', iter one lo hi count p p' -> caps p' = caps p.
Proof.
  intros Hone count p p' H. induction H as [| count p p1 p2 Hb H1 _ IH].
  - reflexivity.
  - apply Hone in H1. congruence.
Qed.

Lemma matches_caps (r : regex) :
  groupless r = true ->
  forall p p', matches r p p' -> caps p' = caps p.
Proof.
  induction r as [| s | neg items | dotall | r1 IH1 r2 IH2 | r1 IH1 r2 IH2
                  | greedy lo hi r IH | n r IH | n | r IH |];
    intros Hg p p' H; inversion H; subst; simpl in Hg; try reflexivity.
  - now use_eat.
  - now use_step.
  - now use_step.
  - apply andb_prop in Hg. destruct Hg as [Hg1 Hg2].
    match goal with
    | H1 : matches r1 _ _, H2 : matches r2 _ _ |- _ =>
        apply (IH1 Hg1) in H1; apply (IH2 Hg2) in H2; congruence
    end.
  - apply andb_prop in Hg. now apply IH1.
  - apply andb_prop in Hg. now apply IH2.
  - match goal with
    | H1 : iter _ _ _ _ _ _ |- _ => now apply (iter_caps (IH Hg)) in H1
    end.
  - discriminate.
  - now use_eat.
Qed.

(** A run of one character class. *)
Lemma class_run neg items lo hi :
  forall count p p',
    iter (matches (Cls neg items)) lo hi count p p' ->
    exists t, rest p = t ++ rest p'
              /\ all_chars (fun c => xorb neg (existsb (in_item c) items)) t = true
              /\ lo <= count + String.length t
              /\ (forall h, hi = Some h -> count <= h -> count + String.length t <= h)
              /\ caps p' = caps p.
Proof.
  intros count p p' H.
  induction H as [count p Hlo | count p p1 p2 Hb H1 _ IH].
  - exists "". simpl. repeat split; intros; first [lia | reflexivity].
  - inversion H1 as [| | ? ? ? c ? Hstep Hin | | | | | | | | |]; subst.
    apply step_spec in Hstep. destruct Hstep as (Hr & Hc & _).
    destruct IH as (t & Ht & Hall & Hlen & Hhi & Hcaps).
    exists (String c t). simpl. rewrite Hin, Hall. repeat split.
    + rewrite Hr, Ht. reflexivity.
    + lia.
    + intros h Hh Hle. unfold below in Hb. rewrite Hh in Hb.
      apply Nat.ltb_lt in Hb. specialize (Hhi h Hh). lia.
    + congruence.
Qed.

Lemma seq_inv r1 r2 p p2 :
  matches (Seq r1 r2) p p2 -> exists p1, matches r1 p p1 /\ matches r2 p1 p2.
Proof. intros H; inversion H; subst; eauto. Qed.

Lemma alt_inv r1 r2 p p' :
  matches (Alt r1 r2) p p' -> matches r1 p p' \/ matches r2 p p'.
Proof. intros H; inversion H; subst; auto. Qed.

Lemma lit_inv s p p' :
  matches (Lit s) p p' -> rest p = s ++ rest p' /\ caps p' = caps p.
Proof. intros H; inversion H; subst. now apply eat_spec. Qed.

Lemma grp_inv n r p p2 :
  matches (Grp n r) p p2 ->
  exists p1, matches r p p1 /\ rest p2 = rest p1
             /\ caps p2 = (n, consumed p p1) :: caps p1.
Proof.
  intros H; inversion H; subst.
  match goal with Hm : matches r p ?q |- _ => exists q end.
  now repeat split.
Qed.

Lemma rep_class_inv greedy lo hi neg items p p' :
  matches (Rep greedy lo hi (Cls neg items)) p p' ->
  exists t, rest p = t ++ rest p'
            /\ all_chars (fun c => xorb neg (existsb (in_item c) items)) t = true
            /\ lo <= String.length t
            /\ (forall h, hi = Some h -> String.length t <= h)
            /\ caps p' = caps p.
Proof.
  intros H; inversion H; subst.
  match goal with Hi : iter _ _ _ _ _ _ |- _ => apply class_run in Hi;
    destruct Hi as (t & Hr & Hall & Hlo & Hhi & Hc) end.
  exists t. repeat split; auto. intros h Hh. specialize (Hhi h Hh). lia.
Qed.

Lemma opt_lit_inv s p p' :
  matches (opt (Lit s)) p p' ->
  exists t, (t = "" \/ t = s) /\ rest p = t ++ rest p' /\ caps p' = caps p.
Proof.
  intros H; inversion H; subst.
  match goal with Hi : iter _ _ _ _ _ _ |- _ =>
    inversion Hi as [| ? ? p1 ? Hb H1 H2]; subst end.
  - exists "". now repeat split; auto.
  - apply lit_inv in H1. destruct H1 as (Hr & Hc).
    inversion H2 as [| ? ? ? ? Hb2]; subst.
    + exists s. repeat split; auto.
    + discriminate.
Qed.

Lemma alt_lits_inv (l : list string) :
  forall p p', matches (alt (map Lit l)) p p' ->
    exists s, In s l /\ rest p = s ++ rest p' /\ caps p' = caps p.
Proof.
  induction l as [| a l IH]; intros p p' H.
  - simpl in H. inversion H; subst. simpl in *. discriminate.
  - destruct l as [| b l].
    + simpl in H. apply lit_inv in H. exists a. simpl. tauto.
    + change (matches (Alt (Lit a) (alt (map Lit (b :: l)))) p p') in H.
      apply alt_inv in H. destruct H as [H | H].
      * apply lit_inv in H. exists a. simpl. tauto.
      * apply IH in H. destruct H as (s & Hin & Hr). exists s.
        split; [now right | exact Hr].
Qed.

Lemma string_nonempty (t : string) : 1 <= String.length t -> t <> "".
Proof. destruct t; simpl; [lia | discriminate]. Qed.

Lemma all_chars_ext (f g : ascii -> bool) (t : string) :
  (forall c, f c = g c) -> all_chars f t = all_chars g t.
Proof.
  intros H. induction t as [| c t IH]; simpl; [reflexivity |].
  now rewrite H, IH.
Qed.

Ltac split_seq H :=
  repeat
    (let p1 := fresh "q" in
     let Ha := fresh "Hm" in
     apply seq_inv in H; destruct H as (p1 & Ha & H)).

(** The site part of both _VALID_URL patterns. *)
Lemma valid_url_site_inv (p p' : pos) :
  matches (valid_url_site _VALID_URL_SUB_TUPLE) p p' ->
  exists head site,
    rest p = head ++ site ++ rest p'
    /\ ((In head ["teachable:http://"; "teachable:https://"]
         /\ caps p' = (g_site_t, site) :: caps p
         /\ site <> "" /\ all_chars no_slash site = true)
        \/ (In head ["http://"; "https://"; "http://www."; "https://www."]
            /\ caps p' = (g_site, site) :: caps p
            /\ In site (map fst _SITES))).
Proof.
  unfold valid_url_site, _VALID_URL_SUB_TUPLE. cbn [fst snd seq].
  intros H. apply alt_inv in H. destruct H as [H | H].
  - split_seq H.
    apply lit_inv in Hm. destruct Hm as (R1 & C1).
    apply lit_inv in Hm0. destruct Hm0 as (R2 & C2).
    apply opt_lit_inv in Hm1. destruct Hm1 as (t3 & T3 & R3 & C3).
    apply lit_inv in Hm2. destruct Hm2 as (R4 & C4).
    apply grp_inv in H. destruct H as (q4 & H & R5 & C5).
    apply rep_class_inv in H. destruct H as (site & R6 & A6 & L6 & _ & C6).
    rewrite (@consumed_reads _ _ _ R6) in C5.
    exists ("teachable:http" ++ t3 ++ "://"), site. split.
    + rewrite R1, R2, R3, R4, R6, <- R5. unfold _URL_PREFIX.
      rewrite !append_assoc. reflexivity.
    + left. repeat split.
      * destruct T3 as [-> | ->]; simpl; auto.
      * congruence.
      * now apply string_nonempty.
      * rewrite <- A6. apply all_chars_ext. intros c. unfold no_slash. simpl.
        now rewrite orb_false_r.
  - split_seq H.
    apply lit_inv in Hm. destruct Hm as (R1 & C1).
    apply opt_lit_inv in Hm0. destruct Hm0 as (t2 & T2 & R2 & C2).
    apply lit_inv in Hm1. destruct Hm1 as (R3 & C3).
    apply opt_lit_inv in Hm2. destruct Hm2 as (t4 & T4 & R4 & C4).
    apply grp_inv in H. destruct H as (q4 & H & R5 & C5).
    rewrite <- (map_map fst Lit) in H.
    apply alt_lits_inv in H. destruct H as (site & Hin & R6 & C6).
    rewrite (@consumed_reads _ _ _ R6) in C5.
    exists ("http" ++ t2 ++ "://" ++ t4), site. split.
    + rewrite R1, R2, R3, R4, R6, <- R5. rewrite !append_assoc. reflexivity.
    + right. repeat split.
      * destruct T2 as [-> | ->]; destruct T4 as [-> | ->]; simpl; auto.
      * congruence.
      * exact Hin.
Qed.

Lemma match_sound (r : regex) (s : string) (m : mobj) :
  match_ r s = Some m ->
  exists p', matches r (start s) p'
             /\ groups m = caps p' /\ rest (after m) = rest p'
             /\ group0 m = consumed (start s) p'.
Proof.
  unfold match_, match_at. intros H.
  destruct (run r (start s) (fun p' => Some p')) as [p' |] eqn:Hrun;
    [| discriminate].
  injection H as <-. apply run_sound in Hrun.
  destruct Hrun as (p1 & Hm & Hk). injection Hk as ->.
  exists p'. now repeat split.
Qed.

Lemma site_not_empty (site : string) : In site (map fst _SITES) -> site <> "".
Proof.
  simpl. intros H.
  repeat (destruct H as [<- | H]; [discriminate |]). destruct H.
Qed.

Lemma group_of_head (n : nat) (s : string) (cs : list (nat * string)) :
  group_of ((n, s) :: cs) n = Some s.
Proof. simpl. now rewrite Nat.eqb_refl. Qed.

Lemma lecture_url_reads (url : string) (m : mobj) :
  TeachableIE._match_valid_url url = Some m ->
  exists head site slug id,
    url = head ++ site ++ "/courses/" ++ slug ++ "/lectures/" ++ id
          ++ rest (after m)
    /\ slug <> "" /\ all_chars no_slash slug = true
    /\ id <> "" /\ only_digits id = true
    /\ Re.group m g_id = Some id
    /\ ((In head ["teachable:http://"; "teachable:https://"]
         /\ Re.group m g_site_t = Some site /\ Re.group m g_site = None
         /\ site <> "" /\ all_chars no_slash site = true)
        \/ (In head ["http://"; "https://"; "http://www."; "https://www."]
            /\ Re.group m g_site = Some site /\ Re.group m g_site_t = None
            /\ In site (map fst _SITES))).
Proof.
  unfold TeachableIE._match_valid_url. intros H.
  apply match_sound in H. destruct H as (p' & H & Hg & Hrest & _).
  unfold TeachableIE._VALID_URL in H. cbn [seq] in H.
  apply seq_inv in H. destruct H as (p0 & Hsite & H).
  apply valid_url_site_inv in Hsite.
  destruct Hsite as (head & site & R0 & Hsite).
  split_seq H.
  apply lit_inv in Hm. destruct Hm as (R1 & C1).
  apply rep_class_inv in Hm0. destruct Hm0 as (slug & R2 & A2 & L2 & _ & C2).
  apply lit_inv in Hm1. destruct Hm1 as (R3 & C3).
  apply grp_inv in H. destruct H as (q2 & H & R4 & C4).
  apply rep_class_inv in H. destruct H as (id & R5 & A5 & L5 & _ & C5).
  rewrite (@consumed_reads _ _ _ R5) in C4.
  exists head, site, slug, id.
  assert (Hcaps : caps p' = (g_id, id) :: caps p0) by congruence.
  unfold Re.group. rewrite Hg, Hcaps. repeat split.
  - simpl in R0. rewrite R0, R1, R2, R3, R5, Hrest, <- R4.
    rewrite ?append_assoc. reflexivity.
  - now apply string_nonempty.
  - rewrite <- A2. apply all_chars_ext. intros c. unfold no_slash. simpl.
    now rewrite orb_false_r.
  - now apply string_nonempty.
  - rewrite <- A5. apply all_chars_ext. intros c. simpl.
    now rewrite orb_false_r.
  - destruct Hsite as [(Hh & Hc & Hne & Hns) | (Hh & Hc & Hin)];
      rewrite Hc; simpl caps; [left | right]; repeat split; auto.
Qed.

(* ===================================================================== *)
(** * More properties of the extractors *)
(* ===================================================================== *)

Lemma course_url_reads (url : string) (m : mobj) :
  TeachableCourseIE._match_valid_url url = Some m ->
  exists head site kind enrolled id,
    url = head ++ site ++ "/" ++ kind ++ "/" ++ enrolled ++ id
          ++ rest (after m)
    /\ In kind ["courses"; "p"] /\ In enrolled [""; "enrolled/"]
    /\ id <> "" /\ all_chars id_char id = true
    /\ Re.group m g_id = Some id
    /\ ((In head ["teachable:http://"; "teachable:https://"]
         /\ Re.group m g_site_t = Some site /\ Re.group m g_site = None
         /\ site <> "" /\ all_chars no_slash site = true)
        \/ (In head ["http://"; "https://"; "http://www."; "https://www."]
            /\ Re.group m g_site = Some site /\ Re.group m g_site_t = None
            /\ In site (map fst _SITES))).
Proof.
  unfold TeachableCourseIE._match_valid_url. intros H.
  apply match_sound in H. destruct H as (p' & H & Hg & Hrest & _).
  unfold TeachableCourseIE._VALID_URL in H. cbn [seq] in H.
  apply seq_inv in H. destruct H as (p0 & Hsite & H).
  apply valid_url_site_inv in Hsite.
  destruct Hsite as (head & site & R0 & Hsite).
  split_seq H.
  apply lit_inv in Hm. destruct Hm as (R1 & C1).
  assert (Hkind : exists kind, In kind ["courses"; "p"]
                               /\ rest q = kind ++ rest q0 /\ caps q0 = caps q).
  { apply alt_inv in Hm0. destruct Hm0 as [Hk | Hk]; apply lit_inv in Hk;
      [exists "courses" | exists "p"]; simpl; tauto. }
  destruct Hkind as (kind & Hkind & R2 & C2).
  apply lit_inv in Hm1. destruct Hm1 as (R3 & C3).
  apply opt_lit_inv in Hm2. destruct Hm2 as (enrolled & Hen & R4 & C4).
  apply grp_inv in H. destruct H as (q3 & H & R5 & C5).
  apply rep_class_inv in H. destruct H as (id & R6 & A6 & L6 & _ & C6).
  rewrite (@consumed_reads _ _ _ R6) in C5.
  exists head, site, kind, enrolled, id.
  assert (Hcaps : caps p' = (g_id, id) :: caps p0) by congruence.
  unfold Re.group. rewrite Hg, Hcaps. repeat split.
  - simpl in R0. rewrite R0, R1, R2, R3, R4, R6, Hrest, <- R5.
    rewrite ?append_assoc. reflexivity.
  - exact Hkind.
  - destruct Hen as [-> | ->]; simpl; auto.
  - now apply string_nonempty.
  - rewrite <- A6. apply all_chars_ext. intros c. unfold id_char. simpl.
    now rewrite orb_false_r, !orb_assoc.
  - destruct Hsite as [(Hh & Hc & Hne & Hns) | (Hh & Hc & Hin)];
      rewrite Hc; simpl caps; [left | right]; repeat split; auto.
Qed.

(** X1. Every URL that [TeachableIE._VALID_URL] matches reads, from its
    start: either the escape prefix and a scheme followed by a non-empty
    host without a slash, or a scheme, an optional www. and one of the
    sites of [_SITES]; then /courses/, a non-empty slug without a slash,
    /lectures/ and a non-empty run of digits. The groups hold that host
    or site, and those digits as the id. *)
Theorem lecture_url_shape (url : string) (m : mobj) :
  TeachableIE._match_valid_url url = Some m ->
  exists head site slug id,
    url = head ++ site ++ "/courses/" ++ slug ++ "/lectures/" ++ id
          ++ rest (after m)
    /\ slug <> "" /\ all_chars no_slash slug = true
    /\ id <> "" /\ only_digits id = true
    /\ Re.group m g_id = Some id
    /\ ((In head ["teachable:http://"; "teachable:https://"]
         /\ Re.group m g_site_t = Some site /\ Re.group m g_site = None
         /\ site <> "" /\ all_chars no_slash site = true)
        \/ (In head ["http://"; "https://"; "http://www."; "https://www."]
            /\ Re.group m g_site = Some site /\ Re.group m g_site_t = None
            /\ In site (map fst _SITES))).
Proof. exact (@lecture_url_reads url m). Qed.

(** X2. Every URL that [TeachableCourseIE._VALID_URL] matches reads,
    from its start: the same site part as a lecture URL; then /courses/
    or /p/, an optional enrolled/, and a non-empty id made of characters
    other than the slash, the question mark, the hash and the ampersand.
    The groups hold the host or site, and that id. *)
Theorem course_url_shape (url : string) (m : mobj) :
  TeachableCourseIE._match_valid_url url = Some m ->
  exists head site kind enrolled id,
    url = head ++ site ++ "/" ++ kind ++ "/" ++ enrolled ++ id
          ++ rest (after m)
    /\ In kind ["courses"; "p"] /\ In enrolled [""; "enrolled/"]
    /\ id <> "" /\ all_chars id_char id = true
    /\ Re.group m g_id = Some id
    /\ ((In head ["teachable:http://"; "teachable:https://"]
         /\ Re.group m g_site_t = Some site /\ Re.group m g_site = None
         /\ site <> "" /\ all_chars no_slash site = true)
        \/ (In head ["http://"; "https://"; "http://www."; "https://www."]
            /\ Re.group m g_site = Some site /\ Re.group m g_site_t = None
            /\ In site (map fst _SITES))).
Proof. exact (@course_url_reads url m). Qed.

Lemma or_site (m : mobj) (site : string) :
  (Re.group m g_site_t = Some site /\ Re.group m g_site = None)
  \/ (Re.group m g_site = Some site /\ Re.group m g_site_t = None
      /\ In site (map fst _SITES)) ->
  Py.or_ (Re.group m g_site) (Re.group m g_site_t) = Some site.
Proof.
  intros [(Ht & Hs) | (Hs & Ht & Hin)]; unfold Py.or_; rewrite Hs, Ht.
  - reflexivity.
  - apply site_not_empty in Hin. apply String.eqb_neq in Hin.
    simpl. now rewrite Hin.
Qed.

Lemma head_facts (head tail : string) :
  (In head ["teachable:http://"; "teachable:https://"] ->
   Py.startswith (head ++ tail) _URL_PREFIX = true
   /\ Py.startswith (page_url (head ++ tail)) "http" = true)
  /\ (In head ["http://"; "https://"; "http://www."; "https://www."] ->
      Py.startswith (head ++ tail) _URL_PREFIX = false
      /\ Py.startswith (page_url (head ++ tail)) "http" = true).
Proof.
  split; intros H; simpl in H;
    repeat (destruct H as [<- | H]; [split; reflexivity |]); destruct H.
Qed.

(** X3. Every URL an extractor accepts gives [_real_extract] a site and
    an id, so that the branch where a group is missing is never taken;
    the URL of the page it fetches, once the escape prefix is stripped,
    starts with http; and a URL without the escape prefix is accepted
    for the sites of [_SITES] only. *)
Theorem accepted_url_parts (url : string) :
  (TeachableIE.suitable url = true ->
   exists site video_id,
     lecture_url_parts url = Some (Some site, Some video_id)
     /\ Py.startswith (page_url url) "http" = true
     /\ (Py.startswith url _URL_PREFIX = false -> In site (map fst _SITES)))
  /\ (TeachableCourseIE.super_suitable url = true ->
      exists site course_id,
        course_url_parts url = Some (Some site, Some course_id)
        /\ Py.startswith (page_url url) "http" = true
        /\ (Py.startswith url _URL_PREFIX = false -> In site (map fst _SITES))).
Proof.
  split.
  - unfold TeachableIE.suitable, lecture_url_parts.
    destruct (TeachableIE._match_valid_url url) as [m |] eqn:Hm;
      [intros _ | discriminate].
    apply lecture_url_reads in Hm.
    destruct Hm as (head & site & slug & id & Hurl & _ & _ & _ & _ & Hid & Hsite).
    exists site, id. cbn [option_map]. rewrite Hid.
    rewrite (@or_site m site) by tauto.
    split; [reflexivity |]. rewrite Hurl.
    destruct (head_facts head
                (site ++ "/courses/" ++ slug ++ "/lectures/" ++ id
                 ++ rest (after m))) as [Hp Hu].
    destruct Hsite as [(Hh & _) | (Hh & _ & _ & Hin)].
    + destruct (Hp Hh) as [H1 H2]. split; [exact H2 | congruence].
    + destruct (Hu Hh) as [H1 H2]. split; [exact H2 | intros _; exact Hin].
  - unfold TeachableCourseIE.super_suitable, course_url_parts.
    destruct (TeachableCourseIE._match_valid_url url) as [m |] eqn:Hm;
      [intros _ | discriminate].
    apply course_url_reads in Hm.
    destruct Hm as (head & site & kind & enrolled & id & Hurl & _ & _ & _ & _
                    & Hid & Hsite).
    exists site, id. cbn [option_map]. rewrite Hid.
    rewrite (@or_site m site) by tauto.
    split; [reflexivity |]. rewrite Hurl.
    destruct (head_facts head
                (site ++ "/" ++ kind ++ "/" ++ enrolled ++ id
                 ++ rest (after m))) as [Hp Hu].
    destruct Hsite as [(Hh & _) | (Hh & _ & _ & Hin)].
    + destruct (Hp Hh) as [H1 H2]. split; [exact H2 | congruence].
    + destruct (Hu Hh) as [H1 H2]. split; [exact H2 | intros _; exact Hin].
Qed.

Section LectureRuns.
Context {U : Utils} {W : World}.
Import TeachableIE.

Lemma lecture_extract_login_failed
    (url : string) (s : ie) (site video_id : string) (e : exn) (s1 : ie) :
  lecture_url_parts url = Some (Some site, Some video_id) ->
  _login site s = (inl e, s1) ->
  _real_extract url s = (inl e, s1).
Proof.
  intros Hurl Hlogin. unfold lecture_url_parts in Hurl. unfold _real_extract.
  destruct (_match_valid_url url) as [m |]; [| discriminate].
  simpl in Hurl. injection Hurl as Hsite Hid. rewrite Hsite, Hid.
  unfold bind. now rewrite Hlogin.
Qed.

Lemma lecture_extract_fetch_failed
    (url : string) (s : ie) (site video_id : string) (e : exn) (s1 : ie) :
  lecture_url_parts url = Some (Some site, Some video_id) ->
  _login site s = (inr tt, s1) ->
  download_webpage (trace s1) (page_url url) None [] = inl e ->
  _real_extract url s = (inl e, fetched url s1).
Proof.
  intros Hurl Hlogin Hpage. unfold lecture_url_parts in Hurl.
  unfold _real_extract.
  destruct (_match_valid_url url) as [m |]; [| discriminate].
  simpl in Hurl. injection Hurl as Hsite Hid. rewrite Hsite, Hid.
  unfold bind. rewrite Hlogin. unfold _download_webpage.
  fold (page_url url). now rewrite Hpage.
Qed.

Lemma lecture_extract_run
    (url : string) (s : ie) (site video_id : string) (s1 : ie)
    (webpage : string) :
  lecture_url_parts url = Some (Some site, Some video_id) ->
  _login site s = (inr tt, s1) ->
  download_webpage (trace s1) (page_url url) None [] = inr webpage ->
  _real_extract url s
  = match _create_hotmart_url webpage video_id site (fetched url s1) with
    | (inl e, s3) => (inl e, s3)
    | (inr hotmart, s3) =>
        match chapter_info webpage video_id s3 with
        | (inl e, s4) => (inl e, s4)
        | (inr (chapter, chapter_number), s4) =>
            (inr (mk_url_result hotmart "Generic" true (Some video_id)
                    (_og_search_title webpage) chapter chapter_number), s4)
        end
    end.
Proof.
  intros Hurl Hlogin Hpage. unfold lecture_url_parts in Hurl.
  unfold _real_extract.
  destruct (_match_valid_url url) as [m |]; [| discriminate].
  simpl in Hurl. injection Hurl as Hsite Hid. rewrite Hsite, Hid.
  unfold bind. rewrite Hlogin. unfold _download_webpage.
  fold (page_url url). rewrite Hpage. fold (fetched url s1).
  destruct (_create_hotmart_url webpage video_id site (fetched url s1))
    as [[e | hotmart] s3]; [reflexivity |].
  destruct (chapter_info webpage video_id s3) as [[e | [c n]] s4]; reflexivity.
Qed.

(** What [_create_hotmart_url] does once the container is found. *)
Lemma hotmart_run (webpage video_id site : string) (s : ie) (el : string) :
  get_element_html_by_class "hotmart_video_player" webpage = Some el ->
  _create_hotmart_url webpage video_id site s
  = match Py.dict_get (extract_attributes el) "data-attachment-id" with
    | None => (inl (KeyError "data-attachment-id"), s)
    | Some attachment_id =>
        let s' := mkie (logged_in s)
                       (DownloadJson (private_video_api site)
                                     [("attachment_id", attachment_id)]
                        :: trace s) in
        match download_json (trace s) (private_video_api site)
                            [("attachment_id", attachment_id)] with
        | inl e => (inl e, s')
        | inr data =>
            match Py.dict_get data "video_id" with
            | None => (inl (KeyError "video_id"), s')
            | Some v =>
                match Py.dict_get data "signature" with
                | None => (inl (KeyError "signature"), s')
                | Some sg =>
                    match Py.dict_get data "teachable_application_key" with
                    | None =>
                        (inl (KeyError "teachable_application_key"), s')
                    | Some tk => (inr (hotmart_url v sg tk), s')
                    end
                end
            end
        end
    end.
Proof.
  intros Hel. unfold _create_hotmart_url. rewrite Hel.
  unfold bind, getitem, _download_json, private_video_api.
  destruct (Py.dict_get (extract_attributes el) "data-attachment-id")
    as [a |]; [| reflexivity].
  cbv beta iota zeta. unfold ret at 1.
  destruct (download_json (trace s) ("https://" ++ site
                                     ++ "/api/v2/hotmart/private_video")
                          [("attachment_id", a)]) as [e | data]; [reflexivity |].
  destruct (Py.dict_get data "video_id") as [v |]; [| reflexivity].
  destruct (Py.dict_get data "signature") as [sg |]; [| reflexivity].
  destruct (Py.dict_get data "teachable_application_key") as [tk |];
    reflexivity.
Qed.
End LectureRuns.

Section LectureMore.
Context {U : Utils} {W : World}.
Import TeachableIE.

Lemma chapter_info_pure (webpage video_id : string) (s : ie) :
  snd (chapter_info webpage video_id s) = s.
Proof.
  unfold chapter_info.
  destruct (_search_regex [section_item_pattern video_id] webpage None 1)
    as [li |]; [| reflexivity].
  destruct (negb (String.eqb li "")); [| reflexivity].
  destruct (int_or_none (_search_regex [ss_position_pattern] li None 1))
    as [n |]; [| reflexivity].
  unfold bind, pick_chapter.
  destruct (n <=? _)%Z; [| reflexivity].
  destruct (Py.index _ _); reflexivity.
Qed.

Lemma collected_sections (webpage : string) :
  collect_sections (findall1 section_title_pattern 1 webpage) []
  = kept_sections webpage.
Proof. rewrite collect_sections_spec. reflexivity. Qed.

Lemma kept_sections_not_empty (webpage t : string) :
  In t (kept_sections webpage) -> t <> "".
Proof.
  unfold kept_sections.
  generalize (findall1 section_title_pattern 1 webpage) as titles.
  intros titles.
  destruct (forallb (fun x => Py.truthy (cleaned x)) titles) eqn:Hall;
    [| intros []].
  rewrite forallb_forall in Hall. intros Hin.
  apply in_map_iff in Hin. destruct Hin as (raw & <- & Hraw).
  specialize (Hall raw Hraw). unfold title_text.
  destruct (cleaned raw) as [c |]; [| discriminate].
  simpl in Hall. apply negb_true_iff in Hall. now apply String.eqb_neq.
Qed.

Lemma index_in (A : Type) (l : list A) (i : Z) (x : A) :
  Py.index l i = Some x -> In x l.
Proof.
  unfold Py.index. destruct (0 <=? i)%Z.
  - apply nth_error_In.
  - destruct (- Z.of_nat (List.length l) <=? i)%Z; [| discriminate].
    apply nth_error_In.
Qed.

(** X4. What fails first stops the lecture extraction: when [_login]
    raises, [_real_extract] raises the same error in the state the login
    left, and the lecture page is not fetched; when the fetch of the page
    fails, that error is raised; and when the page has no Hotmart
    container, the login-required or the extraction error is raised
    right after the fetch, before any call of the Hotmart API. *)
Theorem lecture_failures_stop_extraction
    (url : string) (s : ie) (site video_id : string) (s1 : ie) :
  lecture_url_parts url = Some (Some site, Some video_id) ->
  (forall e, _login site s = (inl e, s1) ->
             _real_extract url s = (inl e, s1))
  /\ (forall e, _login site s = (inr tt, s1) ->
                download_webpage (trace s1) (page_url url) None [] = inl e ->
                _real_extract url s = (inl e, fetched url s1))
  /\ (forall webpage,
        _login site s = (inr tt, s1) ->
        download_webpage (trace s1) (page_url url) None [] = inr webpage ->
        get_element_html_by_class "hotmart_video_player" webpage = None ->
        _real_extract url s
        = (inl (if existsb (fun p => found p webpage) locked_patterns
                then LoginRequired "Lecture contents locked"
                else ExtractorError "Unable to find Hotmart video container"
                                    false),
           fetched url s1)).
Proof.
  intros Hurl. split; [| split].
  - intros e Hlogin. now apply lecture_extract_login_failed with site video_id.
  - intros e Hlogin Hpage.
    now apply lecture_extract_fetch_failed with site video_id.
  - intros webpage Hlogin Hpage Habsent.
    rewrite (lecture_extract_run url s Hurl Hlogin Hpage).
    unfold _create_hotmart_url. rewrite Habsent. unfold bind.
    destruct (existsb (fun p => found p webpage) locked_patterns); reflexivity.
Qed.

(** X5. When the login returns, the page is fetched, its container
    carries an attachment id and the API answers with the three keys,
    [_real_extract] asks the API of the site once, with that attachment
    id, after the page, and returns a url-transparent result for the
    Generic extractor: the playback URL built from the answer, the id of
    the URL, the og:title of the page, and the chapter and chapter number
    that [chapter_info] finds (or the error it raises). *)
Theorem lecture_extraction_result
    (url : string) (s : ie) (site video_id : string) (s1 : ie)
    (webpage el attachment_id : string) (data : list (string * string))
    (v sg tk : string) :
  lecture_url_parts url = Some (Some site, Some video_id) ->
  _login site s = (inr tt, s1) ->
  download_webpage (trace s1) (page_url url) None [] = inr webpage ->
  get_element_html_by_class "hotmart_video_player" webpage = Some el ->
  Py.dict_get (extract_attributes el) "data-attachment-id" = Some attachment_id ->
  download_json (trace (fetched url s1)) (private_video_api site)
                [("attachment_id", attachment_id)] = inr data ->
  Py.dict_get data "video_id" = Some v ->
  Py.dict_get data "signature" = Some sg ->
  Py.dict_get data "teachable_application_key" = Some tk ->
  _real_extract url s
  = (match fst (chapter_info webpage video_id s) with
     | inr (chapter, chapter_number) =>
         inr (mk_url_result (hotmart_url v sg tk) "Generic" true
                (Some video_id) (_og_search_title webpage)
                chapter chapter_number)
     | inl e => inl e
     end,
     mkie (logged_in s1)
          (DownloadJson (private_video_api site)
                        [("attachment_id", attachment_id)]
           :: DownloadWebpage (page_url url) None [] :: trace s1)).
Proof.
  intros Hurl Hlogin Hpage Hel Hatt Hjson Hv Hsg Htk.
  rewrite (lecture_extract_run url s Hurl Hlogin Hpage).
  rewrite (hotmart_run webpage video_id site (fetched url s1) Hel).
  rewrite Hatt. cbv zeta. rewrite Hjson, Hv, Hsg, Htk.
  set (s3 := mkie _ _).
  pose proof (chapter_info_pure webpage video_id s3) as Hpure.
  assert (Hsame : fst (chapter_info webpage video_id s3)
                  = fst (chapter_info webpage video_id s)).
  { unfold chapter_info.
    destruct (_search_regex [section_item_pattern video_id] webpage None 1)
      as [li |]; [| reflexivity].
    destruct (negb (String.eqb li "")); [| reflexivity].
    destruct (int_or_none (_search_regex [ss_position_pattern] li None 1))
      as [n |]; [| reflexivity].
    unfold bind, pick_chapter.
    destruct (n <=? _)%Z; [| reflexivity].
    destruct (Py.index _ _); reflexivity. }
  rewrite <- Hsame.
  destruct (chapter_info webpage video_id s3) as [[e | [c n]] s4];
    simpl in *; subst s4; reflexivity.
Qed.

(** X6. With the container found: when it has no data-attachment-id
    attribute, [_create_hotmart_url] raises KeyError for it without
    asking the API; when the answer of the API lacks one of video_id,
    signature and teachable_application_key, it raises KeyError for the
    first one missing, in that order, after the one request. *)
Theorem hotmart_missing_data
    (webpage video_id site : string) (s : ie) (el : string) :
  get_element_html_by_class "hotmart_video_player" webpage = Some el ->
  (Py.dict_get (extract_attributes el) "data-attachment-id" = None ->
   _create_hotmart_url webpage video_id site s
   = (inl (KeyError "data-attachment-id"), s))
  /\ (forall attachment_id data,
        Py.dict_get (extract_attributes el) "data-attachment-id"
        = Some attachment_id ->
        download_json (trace s) (private_video_api site)
                      [("attachment_id", attachment_id)] = inr data ->
        forall key,
          (Py.dict_get data "video_id" = None /\ key = "video_id")
          \/ (Py.dict_get data "video_id" <> None
              /\ Py.dict_get data "signature" = None /\ key = "signature")
          \/ (Py.dict_get data "video_id" <> None
              /\ Py.dict_get data "signature" <> None
              /\ Py.dict_get data "teachable_application_key" = None
              /\ key = "teachable_application_key") ->
          _create_hotmart_url webpage video_id site s
          = (inl (KeyError key),
             mkie (logged_in s)
                  (DownloadJson (private_video_api site)
                                [("attachment_id", attachment_id)]
                   :: trace s))).
Proof.
  intros Hel. rewrite (hotmart_run webpage video_id site s Hel).
  split.
  - intros ->. reflexivity.
  - intros a data -> Hjson key Hkey. cbv zeta. rewrite Hjson.
    destruct Hkey as [(Hv & ->) | [(Hv & Hsg & ->) | (Hv & Hsg & Htk & ->)]].
    + now rewrite Hv.
    + destruct (Py.dict_get data "video_id"); [| congruence]. now rewrite Hsg.
    + destruct (Py.dict_get data "video_id"); [| congruence].
      destruct (Py.dict_get data "signature"); [| congruence].
      now rewrite Htk.
Qed.

(** X7. A chapter number of 0 or below passes the bound test and
    indexes the kept section titles from their end: with chapter number
    [n] and [len] titles kept, the chapter is the title at position
    [len + n - 1] when there is one (the last title for 0), and the
    extraction raises IndexError when there is none (no title kept). *)
Theorem chapter_number_not_positive
    (webpage video_id : string) (s : ie) (li : string) (n : Z) :
  _search_regex [section_item_pattern video_id] webpage None 1 = Some li ->
  li <> "" ->
  int_or_none (_search_regex [ss_position_pattern] li None 1) = Some n ->
  (n <= 0)%Z ->
  ((1 - n <= Z.of_nat (List.length (kept_sections webpage)))%Z ->
   chapter_info webpage video_id s
   = (inr (nth_error (kept_sections webpage)
                     (Z.to_nat (Z.of_nat (List.length (kept_sections webpage))
                                + n - 1)),
           Some n), s)
   /\ nth_error (kept_sections webpage)
                (Z.to_nat (Z.of_nat (List.length (kept_sections webpage))
                           + n - 1)) <> None)
  /\ ((Z.of_nat (List.length (kept_sections webpage)) < 1 - n)%Z ->
      chapter_info webpage video_id s = (inl IndexError, s)).
Proof.
  intros Hitem Hli Hnum Hn.
  assert (Hrun : chapter_info webpage video_id s
                 = match Py.index (kept_sections webpage) (n - 1) with
                   | Some c => (inr (Some c, Some n), s)
                   | None => (inl IndexError, s)
                   end).
  { unfold chapter_info. rewrite Hitem.
    apply String.eqb_neq in Hli. rewrite Hli, Hnum.
    unfold bind. cbn [negb]. cbv beta iota.
    rewrite collected_sections. unfold pick_chapter.
    replace (n <=? Z.of_nat (List.length (kept_sections webpage)))%Z
      with true by (symmetry; apply Z.leb_le; lia).
    destruct (Py.index (kept_sections webpage) (n - 1)); reflexivity. }
  rewrite Hrun. unfold Py.index.
  replace (0 <=? n - 1)%Z with false by (symmetry; apply Z.leb_gt; lia).
  split; intros Hlen.
  - replace (- Z.of_nat (List.length (kept_sections webpage)) <=? n - 1)%Z
      with true by (symmetry; apply Z.leb_le; lia).
    replace (Z.of_nat (List.length (kept_sections webpage)) + (n - 1))%Z
      with (Z.of_nat (List.length (kept_sections webpage)) + n - 1)%Z by lia.
    destruct (nth_error (kept_sections webpage) _) as [c |] eqn:Hnth.
    + split; [reflexivity | discriminate].
    + apply nth_error_None in Hnth. lia.
  - replace (- Z.of_nat (List.length (kept_sections webpage)) <=? n - 1)%Z
      with false by (symmetry; apply Z.leb_gt; lia).
    reflexivity.
Qed.

(** X8. The chapter lookup makes no request and leaves the state as it
    is; it raises nothing but IndexError; it never returns a chapter
    without a chapter number; and a chapter it returns is one of the
    cleaned section titles of the page, and is not empty. *)
Theorem chapter_info_invariant (webpage video_id : string) (s : ie) :
  snd (chapter_info webpage video_id s) = s
  /\ (fst (chapter_info webpage video_id s) = inl IndexError
      \/ exists chapter chapter_number,
           fst (chapter_info webpage video_id s)
           = inr (chapter, chapter_number)
           /\ (chapter_number = None -> chapter = None)
           /\ (forall t, chapter = Some t ->
                         In t (kept_sections webpage) /\ t <> "")).
Proof.
  split; [apply chapter_info_pure |].
  unfold chapter_info.
  destruct (_search_regex [section_item_pattern video_id] webpage None 1)
    as [li |].
  2: { right. exists None, None. simpl. repeat split; discriminate. }
  destruct (negb (String.eqb li "")).
  2: { right. exists None, None. simpl. repeat split; discriminate. }
  destruct (int_or_none (_search_regex [ss_position_pattern] li None 1))
    as [n |].
  2: { right. exists None, None. simpl. repeat split; discriminate. }
  unfold bind. rewrite collected_sections. unfold pick_chapter.
  destruct (n <=? _)%Z.
  - destruct (Py.index (kept_sections webpage) (n - 1)) as [c |] eqn:Hc.
    + right. exists (Some c), (Some n). simpl.
      split; [reflexivity | split; [discriminate |]].
      intros t Ht. injection Ht as <-. apply index_in in Hc.
      split; [exact Hc | now apply kept_sections_not_empty in Hc].
    + now left.
  - right. exists None, (Some n). simpl. repeat split; discriminate.
Qed.
End LectureMore.

Section LoginMore.
Context {U : Utils} {W : World}.

Lemma dict_lookup_set (A : Type) (d : list (string * A)) (k k' : string) (v : A) :
  Py.dict_lookup (Py.dict_set d k v) k'
  = if String.eqb k k' then Some v else Py.dict_lookup d k'.
Proof.
  induction d as [| [k0 v0] d IH]; simpl.
  - reflexivity.
  - destruct (String.eqb k0 k) eqn:Hk0; simpl.
    + apply String.eqb_eq in Hk0. subst k0.
      destruct (String.eqb k k'); reflexivity.
    + destruct (String.eqb k0 k') eqn:Hk0'.
      * apply String.eqb_eq in Hk0'. subst k0.
        rewrite String.eqb_sym in Hk0. now rewrite Hk0.
      * exact IH.
Qed.

Lemma dict_lookup_map_some (d : list (string * string)) (k : string) :
  Py.dict_lookup (map (fun kv => (fst kv, Some (snd kv))) d) k
  = option_map Some (Py.dict_get d k).
Proof.
  induction d as [| [k0 v0] d IH]; simpl; [reflexivity |].
  destruct (String.eqb k0 k); [reflexivity | exact IH].
Qed.

(** X11. When [_login] goes as far as posting, its three requests are
    the credential lookup, the sign-in page and one POST of the
    url-encoded login form, with the form content type and the final URL
    of the sign-in page as Referer. In the form, email is the user name
    and password the password, whatever hidden inputs of those names the
    page has, and every other field is a hidden input of the page with
    its value. *)
Theorem login_post_request
    (site : string) (s : ie) (username : string) (password : option string)
    (login_page urlh : string) :
  logged_in s = false ->
  get_login_info (trace s) (netrc_machine site) = (Some username, password) ->
  download_webpage_handle (GetLoginInfo (netrc_machine site) :: trace s)
    ("https://" ++ site ++ "/sign_in") = inr (login_page, urlh) ->
  is_logged login_page = false ->
  trace (snd (_login site s))
  = DownloadWebpage
      (login_post_url login_page urlh)
      (Some (urlencode_postdata (login_form login_page username password)))
      [("Content-Type", "application/x-www-form-urlencoded");
       ("Referer", urlh)]
    :: DownloadWebpageHandle ("https://" ++ site ++ "/sign_in")
    :: GetLoginInfo (netrc_machine site) :: trace s
  /\ Py.dict_lookup (login_form login_page username password) "email"
     = Some (Some username)
  /\ Py.dict_lookup (login_form login_page username password) "password"
     = Some password
  /\ (forall k, k <> "email" -> k <> "password" ->
        Py.dict_lookup (login_form login_page username password) k
        = option_map Some (Py.dict_get (_hidden_inputs login_page) k)).
Proof.
  intros Hflag Hcred Hpage Hlogged. split; [| split; [| split]].
  - destruct (_login site s) as [r s'] eqn:Hlogin.
    apply login_result in Hlogin. cbn [snd].
    inversion Hlogin
      as [Ha | pw Hf Hc | u pw tr1 e Hf Hc Htr Hp | u pw tr1 lp uh Hf Hc Htr Hp Hl
          | u pw tr1 tr2 lp uh answer r0 b Hf Hc Htr1 Hp Hl Htr2 Hans Hout];
      subst; try congruence; rewrite Hcred in Hc; injection Hc as <- <-;
      rewrite Hpage in Hp; try discriminate; injection Hp as <- <-;
      try congruence.
    reflexivity.
  - unfold login_form. rewrite !dict_lookup_set. reflexivity.
  - unfold login_form. rewrite !dict_lookup_set. reflexivity.
  - intros k Hemail Hpassword. unfold login_form. rewrite !dict_lookup_set.
    apply not_eq_sym in Hemail. apply not_eq_sym in Hpassword.
    apply String.eqb_neq in Hemail. apply String.eqb_neq in Hpassword.
    rewrite Hemail, Hpassword. apply dict_lookup_map_some.
Qed.

(** X12. When the sign-in page already shows logged-in markers,
    [_login] sets the flag and returns after two requests, the credential
    lookup and the sign-in page: no form is posted. *)
Theorem session_restored
    (site : string) (s : ie) (username : string) (password : option string)
    (login_page urlh : string) :
  logged_in s = false ->
  get_login_info (trace s) (netrc_machine site) = (Some username, password) ->
  download_webpage_handle (GetLoginInfo (netrc_machine site) :: trace s)
    ("https://" ++ site ++ "/sign_in") = inr (login_page, urlh) ->
  is_logged login_page = true ->
  _login site s
  = (inr tt,
     mkie true (DownloadWebpageHandle ("https://" ++ site ++ "/sign_in")
                :: GetLoginInfo (netrc_machine site) :: trace s)).
Proof.
  intros Hflag Hcred Hpage Hlogged.
  destruct (_login site s) as [r s'] eqn:Hlogin.
  apply login_result in Hlogin.
  inversion Hlogin
    as [Ha | pw Hf Hc | u pw tr1 e Hf Hc Htr Hp | u pw tr1 lp uh Hf Hc Htr Hp Hl
        | u pw tr1 tr2 lp uh answer r0 b Hf Hc Htr1 Hp Hl Htr2 Hans Hout];
    subst; try congruence; rewrite Hcred in Hc; injection Hc as <- <-;
    rewrite Hpage in Hp; try discriminate; injection Hp as <- <-;
    try congruence.
  reflexivity.
Qed.

(** X13. When the answer to the POST does not contain the
    privacy-policy prompt: with logged-in markers in it, [_login] returns
    and the flag is set; without them the flag stays clear and [_login]
    raises, with the cleaned text of the auth-flash-error element as an
    expected error when the answer has one, and with the unexpected
    error Unable to log in when it has none. *)
Theorem login_post_outcome
    (site : string) (s : ie) (r : exn + unit) (s' : ie)
    (url : string) (data : option string) (headers : list (string * string))
    (response : string) :
  _login site s = (r, s') ->
  trace s' = DownloadWebpage url data headers :: sign_in site
             :: GetLoginInfo (netrc_machine site) :: trace s ->
  download_webpage
    (sign_in site :: GetLoginInfo (netrc_machine site) :: trace s)
    url data headers = inr response ->
  Py.str_in privacy_policy_prompt response = false ->
  (is_logged response = true -> r = inr tt /\ logged_in s' = true)
  /\ (is_logged response = false ->
      logged_in s' = false
      /\ r = inl (match get_element_by_class "auth-flash-error" response with
                  | Some message =>
                      ExtractorError ("Unable to login: " ++ clean_html message)
                                     true
                  | None => ExtractorError "Unable to log in" false
                  end)).
Proof.
  intros Hlogin Htrace Hanswer Hprompt.
  apply login_result in Hlogin.
  inversion Hlogin; subst; simpl in Htrace.
  - apply (@no_proper_suffix _ (trace s')
             [DownloadWebpage url data headers; sign_in site;
              GetLoginInfo (netrc_machine site)]) in Htrace.
    discriminate.
  - discriminate.
  - discriminate.
  - discriminate.
  - unfold login_post in Htrace. injection Htrace as Hu Hd Hh.
    rewrite Hu, Hd, Hh in *.
    match goal with Hout : post_outcome _ _ _ _ |- _ =>
      rewrite Hanswer in Hout; inversion Hout; subst end;
      try congruence; split; intros Hl; try congruence;
      match goal with
      | Hf : get_element_by_class _ _ = _ |- _ => now rewrite Hf
      | _ => now split
      end.
Qed.

(** X14. A call of [_login] adds to the trace, in this order, nothing,
    or the credential lookup, or the lookup and the sign-in page, or
    those two and one POST with a body; it never asks for JSON. With the
    flag set it adds nothing and keeps the flag set; and whenever the
    flag is set after the call, the call has returned without
    raising. *)
Theorem login_requests (site : string) (s : ie) :
  exists new,
    trace (snd (_login site s)) = (new ++ trace s)%list
    /\ (new = []
        \/ new = [GetLoginInfo (netrc_machine site)]
        \/ new = [DownloadWebpageHandle ("https://" ++ site ++ "/sign_in");
                  GetLoginInfo (netrc_machine site)]
        \/ exists url data referer,
             new = [DownloadWebpage url (Some data)
                      [("Content-Type", "application/x-www-form-urlencoded");
                       ("Referer", referer)];
                    DownloadWebpageHandle ("https://" ++ site ++ "/sign_in");
                    GetLoginInfo (netrc_machine site)])
    /\ (logged_in s = true -> new = [] /\ logged_in (snd (_login site s)) = true)
    /\ (logged_in (snd (_login site s)) = true ->
        fst (_login site s) = inr tt).
Proof.
  destruct (_login site s) as [r s'] eqn:Hlogin.
  apply login_result in Hlogin. cbn [fst snd].
  inversion Hlogin
    as [Ha | pw Hf Hc | u pw tr1 e Hf Hc Htr Hp | u pw tr1 lp uh Hf Hc Htr Hp Hl
        | u pw tr1 tr2 lp uh answer r0 b Hf Hc Htr1 Hp Hl Htr2 Hans Hout];
    subst; cbn [trace logged_in].
  - exists []. split; [reflexivity | split; [now left | split]]; auto.
  - exists [GetLoginInfo (netrc_machine site)].
    split; [reflexivity | split; [right; now left | split]]; congruence.
  - exists [sign_in site; GetLoginInfo (netrc_machine site)].
    split; [reflexivity | split; [right; right; now left | split]];
      congruence.
  - exists [sign_in site; GetLoginInfo (netrc_machine site)].
    split; [reflexivity | split; [right; right; now left | split]];
      congruence.
  - exists [login_post lp uh u pw; sign_in site;
            GetLoginInfo (netrc_machine site)].
    split; [reflexivity | split; [| split]].
    + right. right. right. unfold login_post, login_post_data,
        login_post_headers. eauto.
    + congruence.
    + inversion Hout; subst; intros; congruence.
Qed.
End LoginMore.

Lemma search_from_sound (r : regex) :
  forall (s : string) (pv : option ascii) (m : mobj),
    search_from r pv s = Some m ->
    exists pre pv' suffix p',
      s = pre ++ suffix
      /\ matches r (mkpos pv' suffix []) p'
      /\ groups m = caps p'
      /\ group0 m = consumed (mkpos pv' suffix []) p'.
Proof.
  induction s as [| c s IH]; intros pv m H; simpl in H.
  - destruct (match_at r (mkpos pv "" [])) as [m0 |] eqn:Hm; [| discriminate].
    injection H as <-. unfold match_at in Hm.
    destruct (run r (mkpos pv "" []) (fun p' => Some p')) as [p' |] eqn:Hrun;
      [| discriminate].
    injection Hm as <-. apply run_sound in Hrun.
    destruct Hrun as (p1 & Hmatch & Hk). injection Hk as ->.
    exists "", pv, "", p'. now repeat split.
  - destruct (match_at r (mkpos pv (String c s) [])) as [m0 |] eqn:Hm.
    + injection H as <-. unfold match_at in Hm.
      destruct (run r (mkpos pv (String c s) []) (fun p' => Some p'))
        as [p' |] eqn:Hrun; [| discriminate].
      injection Hm as <-. apply run_sound in Hrun.
      destruct Hrun as (p1 & Hmatch & Hk). injection Hk as ->.
      exists "", pv, (String c s), p'. now repeat split.
    + apply IH in H. destruct H as (pre & pv' & suffix & p' & -> & Hrest).
      exists (String c pre), pv', suffix, p'. now split.
Qed.

Lemma search_regex_sound (r : regex) (s : string) (g : nat) (x : string) :
  _search_regex [r] s None g = Some x ->
  exists pre pv suffix p',
    s = pre ++ suffix
    /\ matches r (mkpos pv suffix []) p'
    /\ group_of (caps p') g = Some x.
Proof.
  unfold _search_regex, search.
  destruct (search_from r None s) as [m |] eqn:Hm; [| discriminate].
  intros Hg. apply search_from_sound in Hm.
  destruct Hm as (pre & pv & suffix & p' & Hs & Hmatch & Hgroups & _).
  exists pre, pv, suffix, p'. repeat split; auto.
  unfold group in Hg. now rewrite Hgroups in Hg.
Qed.

(** An iteration that has to go on reads what one step reads first. *)
Lemma iter_first (one : pos -> pos -> Prop) lo hi count p p' :
  iter one lo hi count p p' -> count < lo ->
  exists p1, one p p1 /\ iter one lo hi (S count) p1 p'.
Proof.
  intros H Hlt. inversion H; subst; [lia |]. eauto.
Qed.

Lemma lecture_id_reads (href id : string) :
  _search_regex [TeachableCourseIE.lecture_id_pattern] href None 1 = Some id ->
  id <> "" /\ only_digits id = true
  /\ exists pre post, href = pre ++ "/lectures/" ++ id ++ post.
Proof.
  intros H. apply search_regex_sound in H.
  destruct H as (pre & pv & suffix & p' & Hs & H & Hg).
  unfold TeachableCourseIE.lecture_id_pattern in H. cbn [seq] in H.
  apply seq_inv in H. destruct H as (q & Hlit & H).
  apply lit_inv in Hlit. destruct Hlit as (R1 & C1).
  apply grp_inv in H. destruct H as (q1 & H & R2 & C2).
  apply rep_class_inv in H. destruct H as (t & R3 & A3 & L3 & _ & C3).
  rewrite (@consumed_reads _ _ _ R3) in C2.
  rewrite C2 in Hg. simpl in Hg. injection Hg as <-.
  split; [now apply string_nonempty | split].
  - unfold only_digits. rewrite <- A3. apply all_chars_ext. intros c. simpl.
    now rewrite orb_false_r.
  - exists pre, (rest p'). rewrite Hs. simpl in R1. rewrite R1, R3, R2.
    reflexivity.
Qed.

Lemma backref_inv n p p' :
  matches (Backref n) p p' ->
  exists s, group_of (caps p) n = Some s /\ rest p = s ++ rest p'
            /\ caps p' = caps p.
Proof.
  intros H; inversion H; subst.
  match goal with He : eat ?s _ = Some _ |- _ =>
    exists s; apply eat_spec in He; tauto end.
Qed.

Lemma rep_inv greedy lo hi r p p' :
  matches (Rep greedy lo hi r) p p' -> iter (matches r) lo hi 0 p p'.
Proof. intros H; now inversion H; subst. Qed.

Lemma dot_inv dotall p p' :
  matches (Dot dotall) p p' ->
  exists c, rest p = String c (rest p') /\ caps p' = caps p.
Proof.
  intros H; inversion H; subst.
  match goal with Hs : step _ = Some (?c, _) |- _ =>
    exists c; apply step_spec in Hs; tauto end.
Qed.

Lemma neglook_inv r p p' : matches (NegLook r) p p' -> p' = p.
Proof. intros H; now inversion H; subst. Qed.

Lemma anchor_not_empty (li href : string) : anchor li = Some href -> href <> "".
Proof.
  unfold anchor. intros H. apply search_regex_sound in H.
  destruct H as (pre & pv & suffix & p' & Hs & H & Hg).
  unfold TeachableCourseIE.lecture_url_pattern in H. cbn [seq] in H.
  split_seq H.
  apply grp_inv in Hm3. destruct Hm3 as (gB & Hbody & R4 & C4).
  apply backref_inv in H. destruct H as (s0 & _ & _ & C5).
  rewrite C5, C4 in Hg. simpl in Hg. injection Hg as <-.
  apply rep_inv in Hbody.
  apply iter_first in Hbody; [| lia]. destruct Hbody as (p1 & Hone & Hit).
  apply seq_inv in Hone. destruct Hone as (p0 & Hlook & Hdot).
  apply neglook_inv in Hlook. subst p0.
  apply dot_inv in Hdot. destruct Hdot as (c & Rc & _).
  assert (Hreads : exists t, rest p1 = t ++ rest gB).
  { apply (@iter_reads (matches (Seq (NegLook (Backref 1)) (Dot false)))
             1 None) with (count := 1); [| exact Hit].
    apply matches_reads. }
  destruct Hreads as (t & Rt).
  match goal with
  | |- consumed ?a _ <> _ =>
      assert (Rall : rest a = String c t ++ rest gB)
        by (rewrite Rc, Rt; reflexivity);
      rewrite (@consumed_reads _ _ _ Rall)
  end.
  discriminate.
Qed.

Section CourseMore.
Context {U : Utils} {W : World}.
Import TeachableCourseIE.






(** X15. Every entry of a course playlist is a reference for the
    Teachable extractor, not url-transparent, without chapter; it comes
    from a section item of the page whose anchor href is not empty; and
    its video id, when it has one, is a non-empty run of digits that
    follows /lectures/ in that href. *)
Theorem playlist_entries_content
    (url : string) (s : ie) (site course_id : string) (s1 : ie)
    (webpage : string) :
  course_url_parts url = Some (Some site, Some course_id) ->
  _login site s = (inr tt, s1) ->
  download_webpage (trace s1) (page_url url) None [] = inr webpage ->
  exists pl,
    _real_extract url s = (inr pl, fetched url s1)
    /\ forall e, In e (pl_entries pl) ->
         ur_ie e = "Teachable" /\ ur_url_transparent e = false
         /\ ur_chapter e = None /\ ur_chapter_number e = None
         /\ exists li href,
              In li (section_items webpage) /\ anchor li = Some href
              /\ href <> ""
              /\ (ur_video_id e = None
                  \/ exists id pre post,
                       ur_video_id e = Some id /\ id <> ""
                       /\ only_digits id = true
                       /\ href = pre ++ "/lectures/" ++ id ++ post).
Proof.
  intros Hurl Hlogin Hpage. eexists.
  split; [apply (course_extract_run url s Hurl Hlogin Hpage) |].
  cbn [pl_entries]. intros e He.
  apply in_map_iff in He. destruct He as (li & <- & Hli).
  apply filter_In in Hli. destruct Hli as [Hin Hem].
  unfold emitted in Hem. apply andb_prop in Hem. destruct Hem as [_ Ha].
  unfold reference.
  cbn [ur_ie ur_url_transparent ur_chapter ur_chapter_number ur_video_id].
  repeat split.
  destruct (anchor li) as [href |] eqn:Hanchor; [| discriminate].
  exists li, href. split; [exact Hin | split; [exact Hanchor | split]].
  - now apply anchor_not_empty with li.
  - destruct (_search_regex [lecture_id_pattern] href None 1) as [id |] eqn:Hid;
      [right | now left].
    apply lecture_id_reads in Hid. destruct Hid as (Hne & Hd & pre & post & Hh).
    exists id, pre, post. now repeat split.
Qed.

(** X16. For a course URL with the escape prefix, every entry URL
    starts with the prefix, and stripping it the way the lecture
    extractor does gives the anchor of a section item resolved against
    the base URL of the site: the page the lecture extractor will
    fetch. *)
Theorem prefixed_entries_strip_back
    (url : string) (s : ie) (site course_id : string) (s1 : ie)
    (webpage : string) :
  course_url_parts url = Some (Some site, Some course_id) ->
  Py.startswith url _URL_PREFIX = true ->
  _login site s = (inr tt, s1) ->
  download_webpage (trace s1) (page_url url) None [] = inr webpage ->
  exists pl,
    _real_extract url s = (inr pl, fetched url s1)
    /\ forall e, In e (pl_entries pl) ->
         Py.startswith (ur_url e) _URL_PREFIX = true
         /\ exists li href,
              In li (section_items webpage) /\ anchor li = Some href
              /\ page_url (ur_url e) = urljoin ("https://" ++ site ++ "/") href.
Proof.
  intros Hurl Hprefixed Hlogin Hpage. eexists.
  split; [apply (course_extract_run url s Hurl Hlogin Hpage) |].
  cbn [pl_entries]. rewrite Hprefixed. intros e He.
  apply in_map_iff in He. destruct He as (li & <- & Hli).
  apply filter_In in Hli. destruct Hli as [Hin Hem].
  unfold emitted in Hem. apply andb_prop in Hem. destruct Hem as [_ Ha].
  unfold reference. cbn [ur_url].
  destruct (anchor li) as [href |] eqn:Hanchor; [| discriminate].
  assert (Hstarts : Py.startswith
                      (_URL_PREFIX ++ urljoin ("https://" ++ site ++ "/") href)
                      _URL_PREFIX = true)
    by apply prefix_append.
  split; [exact Hstarts |].
  exists li, href. split; [exact Hin | split; [exact Hanchor |]].
  unfold page_url. rewrite Hstarts. apply drop_append.
Qed.
End CourseMore.

Lemma starts_prefixed (u : string) :
  Py.startswith (_URL_PREFIX ++ u) _URL_PREFIX = true.
Proof. apply prefix_append. Qed.

Lemma page_url_prefixed (u : string) : page_url (_URL_PREFIX ++ u) = u.
Proof. unfold page_url. rewrite starts_prefixed. apply drop_append. Qed.

(** X10. [_extract_url] returns a URL only for a page [_is_teachable]
    recognises and a source URL made of a scheme, a non-empty host
    without a slash, a slash and courses or p; that URL is the escape
    prefix followed by the source URL, and stripping the prefix the way
    [_real_extract] does gives the source URL back. For any other page it
    returns nothing. *)
Theorem extract_url_round_trip (webpage source_url : string) :
  (forall u, TeachableIE._extract_url webpage source_url = Some u ->
     TeachableIE._is_teachable webpage = true
     /\ u = _URL_PREFIX ++ source_url
     /\ Py.startswith u _URL_PREFIX = true
     /\ page_url u = source_url
     /\ exists head host kind tail,
          source_url = head ++ host ++ "/" ++ kind ++ tail
          /\ In head ["http://"; "https://"]
          /\ host <> "" /\ all_chars no_slash host = true
          /\ In kind ["courses"; "p"])
  /\ (TeachableIE._is_teachable webpage = false ->
      TeachableIE._extract_url webpage source_url = None).
Proof.
  unfold TeachableIE._extract_url. split.
  - intros u H.
    destruct (TeachableIE._is_teachable webpage); [| discriminate].
    simpl in H.
    destruct (match_ TeachableIE.source_url_pattern source_url) as [m |] eqn:Hm;
      [| discriminate].
    injection H as <-.
    split; [reflexivity | split; [reflexivity | split; [| split]]].
    + exact (starts_prefixed source_url).
    + exact (page_url_prefixed source_url).
    + apply match_sound in Hm. destruct Hm as (p' & H & _).
      unfold TeachableIE.source_url_pattern in H. cbn [seq] in H.
      split_seq H.
      apply lit_inv in Hm. destruct Hm as (R1 & _).
      apply opt_lit_inv in Hm0. destruct Hm0 as (t2 & T2 & R2 & _).
      apply lit_inv in Hm1. destruct Hm1 as (R3 & _).
      apply rep_class_inv in Hm2. destruct Hm2 as (host & R4 & A4 & L4 & _).
      apply lit_inv in Hm3. destruct Hm3 as (R5 & _).
      assert (Hkind : exists kind, In kind ["courses"; "p"]
                                   /\ rest q3 = kind ++ rest p').
      { apply alt_inv in H. destruct H as [Hk | Hk]; apply lit_inv in Hk;
          [exists "courses" | exists "p"]; simpl; tauto. }
      destruct Hkind as (kind & Hkind & R6).
      exists ("http" ++ t2 ++ "://"), host, kind, (rest p').
      repeat split.
      * simpl in R1. rewrite R1, R2, R3, R4, R5, R6.
        rewrite ?append_assoc. reflexivity.
      * destruct T2 as [-> | ->]; simpl; auto.
      * now apply string_nonempty.
      * rewrite <- A4. apply all_chars_ext. intros c. unfold no_slash. simpl.
        now rewrite orb_false_r.
      * exact Hkind.
  - intros ->. reflexivity.
Qed.

(* ===================================================================== *)
(** * The further properties at work on the scenarios *)
(* ===================================================================== *)

Section MoreRuns.
Import Scenario.

Lemma lecture_url_shape_witness :
  exists m head site slug id,
    TeachableIE._match_valid_url lecture_url = Some m
    /\ lecture_url = head ++ site ++ "/courses/" ++ slug ++ "/lectures/" ++ id
                     ++ rest (after m)
    /\ only_digits id = true
    /\ Re.group m g_id = Some id.
Proof.
  assert (Hm : exists m, TeachableIE._match_valid_url lecture_url = Some m)
    by (vm_compute; eexists; reflexivity).
  destruct Hm as (m & Hm).
  destruct (lecture_url_shape lecture_url Hm)
    as (head & site & slug & id & Hurl & _ & _ & _ & Hd & Hid & _).
  exists m, head, site, slug, id. now repeat split.
Defined.

Lemma course_url_shape_witness :
  exists m head site kind enrolled id,
    TeachableCourseIE._match_valid_url prefixed_course_url = Some m
    /\ prefixed_course_url
       = head ++ site ++ "/" ++ kind ++ "/" ++ enrolled ++ id ++ rest (after m)
    /\ all_chars id_char id = true
    /\ Re.group m g_id = Some id.
Proof.
  assert (Hm : exists m,
             TeachableCourseIE._match_valid_url prefixed_course_url = Some m)
    by (vm_compute; eexists; reflexivity).
  destruct Hm as (m & Hm).
  destruct (course_url_shape prefixed_course_url Hm)
    as (head & site & kind & enrolled & id & Hurl & _ & _ & _ & Hd & Hid & _).
  exists m, head, site, kind, enrolled, id. now repeat split.
Defined.

Lemma accepted_url_parts_witness :
  (exists site video_id,
      lecture_url_parts lecture_url = Some (Some site, Some video_id)
      /\ In site (map fst _SITES))
  /\ (exists site course_id,
         course_url_parts prefixed_course_url = Some (Some site, Some course_id)
         /\ Py.startswith (page_url prefixed_course_url) "http" = true).
Proof.
  split.
  - destruct (proj1 (accepted_url_parts lecture_url))
      as (site & id & Hparts & _ & Hknown).
    + vm_compute. reflexivity.
    + exists site, id. split; [exact Hparts |]. apply Hknown.
      vm_compute. reflexivity.
  - destruct (proj2 (accepted_url_parts prefixed_course_url))
      as (site & id & Hparts & Hhttp & _).
    + vm_compute. reflexivity.
    + exists site, id. now split.
Defined.

Lemma lecture_failures_stop_extraction_witness :
  @TeachableIE._real_extract Fixture.utils rejecting lecture_url fresh
  = (inl (ExtractorError "Unable to login: Invalid email or password." true),
     snd (@_login Fixture.utils rejecting gns3 fresh))
  /\ @TeachableIE._real_extract Fixture.utils offline lecture_url fresh
     = (inl not_found, fetched lecture_url (mkie false [GetLoginInfo "gns3"]))
  /\ @TeachableIE._real_extract Fixture.utils
       (world (None, None) "" "" locked_page []) lecture_url fresh
     = (inl (LoginRequired "Lecture contents locked"),
        fetched lecture_url (mkie false [GetLoginInfo "gns3"])).
Proof.
  split; [| split].
  - apply (proj1 (@lecture_failures_stop_extraction Fixture.utils rejecting
                    lecture_url fresh gns3 "6842364"
                    (snd (@_login Fixture.utils rejecting gns3 fresh))
                    ltac:(vm_compute; reflexivity))).
    vm_compute. reflexivity.
  - apply (proj1 (proj2 (@lecture_failures_stop_extraction Fixture.utils offline
                           lecture_url fresh gns3 "6842364"
                           (mkie false [GetLoginInfo "gns3"])
                           ltac:(vm_compute; reflexivity)))).
    + vm_compute. reflexivity.
    + vm_compute. reflexivity.
  - apply (proj2 (proj2 (@lecture_failures_stop_extraction Fixture.utils
                           (world (None, None) "" "" locked_page [])
                           lecture_url fresh gns3 "6842364"
                           (mkie false [GetLoginInfo "gns3"])
                           ltac:(vm_compute; reflexivity)))
             locked_page).
    + vm_compute. reflexivity.
    + vm_compute. reflexivity.
    + vm_compute. reflexivity.
Defined.

Lemma lecture_extraction_result_witness :
  @TeachableIE._real_extract Fixture.utils
    (lecture_world "2" ["Welcome"; "Setup"]) lecture_url fresh
  = (inr (mk_url_result
            "https://player.hotmart.com/embed/vid?signature=sig&token=key"
            "Generic" true (Some "6842364") (Some "Overview")
            (Some "Setup") (Some 2%Z)),
     mkie false
          [DownloadJson "https://gns3.teachable.com/api/v2/hotmart/private_video"
             [("attachment_id", "777")];
           DownloadWebpage lecture_url None [];
           GetLoginInfo "gns3"]).
Proof.
  apply (@lecture_extraction_result Fixture.utils
           (lecture_world "2" ["Welcome"; "Setup"]) lecture_url fresh gns3
           "6842364" (mkie false [GetLoginInfo "gns3"])
           (lecture_page "2" ["Welcome"; "Setup"])
           "<div class='hotmart_video_player' data-attachment-id='777'></div>"
           "777" private_video "vid" "sig" "key").
  all: vm_compute; reflexivity.
Defined.

Lemma hotmart_missing_data_witness :
  @TeachableIE._create_hotmart_url Fixture.utils anonymous
    bare_container_page "6842364" gns3 fresh
  = (inl (KeyError "data-attachment-id"), fresh)
  /\ @TeachableIE._create_hotmart_url Fixture.utils unsigned_api
       (lecture_page "1" ["Welcome"]) "6842364" gns3 fresh
     = (inl (KeyError "signature"),
        mkie false
             [DownloadJson (private_video_api gns3) [("attachment_id", "777")]]).
Proof.
  split.
  - apply (proj1 (@hotmart_missing_data Fixture.utils anonymous
                    bare_container_page "6842364" gns3 fresh
                    bare_container_page ltac:(vm_compute; reflexivity))).
    vm_compute. reflexivity.
  - apply (proj2 (@hotmart_missing_data Fixture.utils unsigned_api
                    (lecture_page "1" ["Welcome"]) "6842364" gns3 fresh
                    "<div class='hotmart_video_player' data-attachment-id='777'></div>"
                    ltac:(vm_compute; reflexivity))
             "777" [("video_id", "vid"); ("teachable_application_key", "key")]).
    + vm_compute. reflexivity.
    + vm_compute. reflexivity.
    + right. left. repeat split; try (vm_compute; reflexivity).
      vm_compute. discriminate.
Defined.

Lemma chapter_number_not_positive_witness :
  @TeachableIE.chapter_info Fixture.utils
    (lecture_page "0" ["Welcome"; "Setup"]) "6842364" fresh
  = (inr (Some "Setup", Some 0%Z), fresh)
  /\ @TeachableIE.chapter_info Fixture.utils
       (lecture_page "0" []) "6842364" fresh
     = (inl IndexError, fresh).
Proof.
  split.
  - apply (proj1 (proj1 (@chapter_number_not_positive Fixture.utils
                    (lecture_page "0" ["Welcome"; "Setup"]) "6842364" fresh
                    ("<li class='section-item' data-lecture-id='6842364' "
                     ++ "data-ss-position='0'>Overview</li>") 0%Z
                    ltac:(vm_compute; reflexivity) ltac:(discriminate)
                    ltac:(vm_compute; reflexivity) ltac:(lia))
                  ltac:(vm_compute; discriminate))).
  - apply (proj2 (@chapter_number_not_positive Fixture.utils
                    (lecture_page "0" []) "6842364" fresh
                    ("<li class='section-item' data-lecture-id='6842364' "
                     ++ "data-ss-position='0'>Overview</li>") 0%Z
                    ltac:(vm_compute; reflexivity) ltac:(discriminate)
                    ltac:(vm_compute; reflexivity) ltac:(lia))).
    vm_compute. reflexivity.
Defined.

Lemma chapter_info_invariant_witness :
  snd (@TeachableIE.chapter_info Fixture.utils
         (lecture_page "1" ["Welcome"; "Setup"]) "6842364" fresh) = fresh
  /\ In "Welcome" (@kept_sections Fixture.utils
                     (lecture_page "1" ["Welcome"; "Setup"])).
Proof.
  destruct (@chapter_info_invariant Fixture.utils
              (lecture_page "1" ["Welcome"; "Setup"]) "6842364" fresh)
    as [Hs [Herr | (c & n & Hr & _ & Hin)]].
  - exfalso. vm_compute in Herr. discriminate.
  - split; [exact Hs |]. apply (Hin "Welcome").
    vm_compute in Hr. injection Hr as <- _. reflexivity.
Defined.


(** A title that is found but empty once cleaned is left out of the
    playlist. *)
Example blank_course_title_is_dropped :
  @course_title Fixture.utils blank_title_page = Some ""
  /\ option_map (fun pl => (pl_id pl, pl_title pl,
                            map ur_video_id (pl_entries pl)))
       (match fst (@TeachableCourseIE._real_extract Fixture.utils
                     blank_title_world course_url fresh) with
        | inr pl => Some pl
        | inl _ => None
        end)
     = Some (Some "423415", None, [Some "101"]).
Proof. split; vm_compute; reflexivity. Qed.

Lemma extract_url_round_trip_witness :
  TeachableIE._extract_url school_page school_url
  = Some ("teachable:" ++ school_url)
  /\ page_url ("teachable:" ++ school_url) = school_url
  /\ TeachableIE._extract_url empty_page school_url = None.
Proof.
  destruct (proj1 (extract_url_round_trip school_page school_url)
              ("teachable:" ++ school_url))
    as (_ & _ & _ & Hback & _).
  - vm_compute. reflexivity.
  - split; [vm_compute; reflexivity | split; [exact Hback |]].
    apply (proj2 (extract_url_round_trip empty_page school_url)).
    vm_compute. reflexivity.
Defined.

Lemma login_post_request_witness :
  trace (snd (@_login Fixture.utils accepting gns3 fresh))
  = [DownloadWebpage "https://gns3.teachable.com/sign_in"
       (Some "authenticity_token=tok&email=ada&password=s3cret")
       [("Content-Type", "application/x-www-form-urlencoded");
        ("Referer", "https://gns3.teachable.com/sign_in")];
     DownloadWebpageHandle "https://gns3.teachable.com/sign_in";
     GetLoginInfo "gns3"]
  /\ Py.dict_lookup (@login_form Fixture.utils sign_in_form "ada" (Some "s3cret"))
                    "authenticity_token"
     = Some (Some "tok").
Proof.
  destruct (@login_post_request Fixture.utils accepting gns3 fresh
              "ada" (Some "s3cret") sign_in_form
              "https://gns3.teachable.com/sign_in")
    as (Htrace & _ & _ & Hother).
  - reflexivity.
  - vm_compute. reflexivity.
  - vm_compute. reflexivity.
  - vm_compute. reflexivity.
  - split.
    + rewrite Htrace. vm_compute. reflexivity.
    + rewrite Hother by discriminate. vm_compute. reflexivity.
Defined.

Lemma session_restored_witness :
  @_login Fixture.utils restoring gns3 fresh
  = (inr tt,
     mkie true [DownloadWebpageHandle "https://gns3.teachable.com/sign_in";
                GetLoginInfo "gns3"]).
Proof.
  apply (@session_restored Fixture.utils restoring gns3 fresh
           "ada" (Some "s3cret") signed_in_page
           "https://gns3.teachable.com/sign_in").
  all: vm_compute; reflexivity.
Defined.

Lemma login_post_outcome_witness :
  (fst (@_login Fixture.utils accepting gns3 fresh) = inr tt
   /\ logged_in (snd (@_login Fixture.utils accepting gns3 fresh)) = true)
  /\ (logged_in (snd (@_login Fixture.utils rejecting gns3 fresh)) = false
      /\ fst (@_login Fixture.utils rejecting gns3 fresh)
         = inl (ExtractorError "Unable to login: Invalid email or password."
                               true)).
Proof.
  split.
  - apply (proj1 (@login_post_outcome Fixture.utils accepting gns3 fresh _ _
                    "https://gns3.teachable.com/sign_in"
                    (Some "authenticity_token=tok&email=ada&password=s3cret")
                    [("Content-Type", "application/x-www-form-urlencoded");
                     ("Referer", "https://gns3.teachable.com/sign_in")]
                    signed_in_page
                    (surjective_pairing _)
                    ltac:(vm_compute; reflexivity)
                    ltac:(vm_compute; reflexivity)
                    ltac:(vm_compute; reflexivity))).
    vm_compute. reflexivity.
  - destruct (proj2 (@login_post_outcome Fixture.utils rejecting gns3 fresh _ _
                    "https://gns3.teachable.com/sign_in"
                    (Some "authenticity_token=tok&email=ada&password=s3cret")
                    [("Content-Type", "application/x-www-form-urlencoded");
                     ("Referer", "https://gns3.teachable.com/sign_in")]
                    rejected_page
                    (surjective_pairing _)
                    ltac:(vm_compute; reflexivity)
                    ltac:(vm_compute; reflexivity)
                    ltac:(vm_compute; reflexivity)))
      as (Hflag & Hr).
    + vm_compute. reflexivity.
    + split; [exact Hflag |]. rewrite Hr. vm_compute. reflexivity.
Defined.

Lemma login_requests_witness :
  exists new,
    trace (snd (@_login Fixture.utils accepting gns3 fresh))
    = (new ++ trace fresh)%list
    /\ List.length new = 3
    /\ fst (@_login Fixture.utils accepting gns3 fresh) = inr tt.
Proof.
  destruct (@login_requests Fixture.utils accepting gns3 fresh)
    as (new & Htrace & Hshape & _ & Hok).
  exists new. split; [exact Htrace | split].
  - assert (Hlen : List.length (new ++ trace fresh)%list = 3)
      by (rewrite <- Htrace; vm_compute; reflexivity).
    rewrite length_app in Hlen. simpl in Hlen. lia.
  - apply Hok. vm_compute. reflexivity.
Defined.

Lemma playlist_entries_content_witness :
  exists pl,
    @TeachableCourseIE._real_extract Fixture.utils (course_world linked)
      course_url fresh
    = (inr pl, fetched course_url (mkie false [GetLoginInfo "gns3"]))
    /\ forall e, In e (pl_entries pl) -> ur_ie e = "Teachable".
Proof.
  destruct (@playlist_entries_content Fixture.utils (course_world linked)
              course_url fresh gns3 "423415"
              (mkie false [GetLoginInfo "gns3"]) (course_page linked)
              ltac:(vm_compute; reflexivity) ltac:(vm_compute; reflexivity)
              ltac:(vm_compute; reflexivity))
    as (pl & Hrun & Hall).
  exists pl. split; [exact Hrun |]. intros e He. now apply Hall.
Defined.

Lemma prefixed_entries_strip_back_witness :
  exists pl,
    @TeachableCourseIE._real_extract Fixture.utils (course_world linked)
      prefixed_course_url fresh
    = (inr pl,
       fetched prefixed_course_url
               (mkie false [GetLoginInfo "learn.vrdev.school"]))
    /\ forall e, In e (pl_entries pl) ->
         Py.startswith (ur_url e) _URL_PREFIX = true.
Proof.
  destruct (@prefixed_entries_strip_back Fixture.utils (course_world linked)
              prefixed_course_url fresh "learn.vrdev.school"
              "gear-vr-developer-mini"
              (mkie false [GetLoginInfo "learn.vrdev.school"])
              (course_page linked)
              ltac:(vm_compute; reflexivity) ltac:(vm_compute; reflexivity)
              ltac:(vm_compute; reflexivity) ltac:(vm_compute; reflexivity))
    as (pl & Hrun & Hall).
  exists pl. split; [exact Hrun |]. intros e He. now apply Hall.
Defined.
End MoreRuns.
